(** * pybank: the account / transaction state machine of [bank/bank.py]

    A shallow embedding of [Transaction] and [Account] from [bank/bank.py]
    (with the error classes of [bank/errors.py] and the authorization-code
    generator of [bank/utils.py]), and the properties of the specification
    checked against it.

    Modelling choices, all read off the source:
    - Python [int] is unbounded: amounts and balances are [Z].
    - A [UUID] is its 128-bit integer value, an [N].
    - A method that mutates [self] and may raise is a function
      [self -> Outcome * self]: the state component is the object as it is
      when the method returns or when the exception leaves it, so that
      effects committed before a [raise] stay visible.
    - [Account.__transactions] is a [dict]: a [gmap] from ids to
      transaction objects.  A transaction object is only ever reachable
      through that dict, so mutating it in place is an update of the map at
      its key.
    - [with self.__lock] brackets every public method; the embedding is the
      sequential semantics of the method bodies.
    - [uuid4()] in the class body of [Transaction] runs once, when the class
      is created; its value is the parameter [id_default] below.
    - [random.choices(range(10), k=6)] is an input supplied by the
      environment at each call of [authorize]. *)

From Stdlib Require Import ZArith String List Lia.
From stdpp Require Import gmap strings list fin_maps pretty.

Local Open Scope Z_scope.

Abbreviation UUID := N (only parsing).

(** ** bank/errors.py, and the builtin [KeyError] of a dict subscript *)

Inductive Exception : Type :=
| KeyError (key : UUID)
| CannotCaptureMoreThanAuthorized
| CannotRefundMoreThanCaptured
| InsufficientFundsError
| InvalidAmountError
| AuthorizationAlreadyCapturedError
| CaptureNotAuthorized
| CancelationNotAuthorized
| CannotCancelCapturedTransaction
| AccountNotFoundError (account : string).

(** Every class of errors.py derives from [BankError]; [KeyError] does not. *)
Definition is_BankError (e : Exception) : bool :=
  match e with
  | KeyError _ => false
  | _ => true
  end.

(** ** Methods: state passing with exceptions that keep the state *)

Inductive Outcome (A : Type) : Type :=
| Returned (value : A)
| Raised (error : Exception).
Arguments Returned {A} value.
Arguments Raised {A} error.

Definition Method (S A : Type) : Type := S -> Outcome A * S.

Definition ret {S A} (a : A) : Method S A := fun self => (Returned a, self).

Definition raise {S A} (e : Exception) : Method S A := fun self => (Raised e, self).

Definition bind {S A B} (m : Method S A) (k : A -> Method S B) : Method S B :=
  fun self =>
    match m self with
    | (Returned a, self') => k a self'
    | (Raised e, self') => (Raised e, self')
    end.

Definition gets {S A} (f : S -> A) : Method S A := fun self => (Returned (f self), self).

Definition modify {S} (f : S -> S) : Method S unit := fun self => (Returned tt, f self).

Declare Scope method_scope.
Delimit Scope method_scope with method.
Notation "'do' x <- m ; k" := (bind m (fun x => k))
  (at level 10, x name, m at level 100, k at level 200, only parsing) : method_scope.
Local Open Scope method_scope.

(** Python's [sum(x.amount for x in xs)]. *)
Definition sum (amounts : list Z) : Z := foldr Z.add 0 amounts.

(** ** bank/utils.py *)

Definition concat (seq : list N) : string :=
  foldr (fun i rest => String.append (pretty i) rest) EmptyString seq.

(** [choices] is the result of [random.choices(range(10), k=6)]. *)
Definition random_authorization_code (choices : list N) : string := concat choices.

(** ** bank/bank.py: Capture, Refund, Status, Transaction *)

Module Capture.
Record t : Type := Build { amount : Z }.
End Capture.

Module Refund.
Record t : Type := Build { amount : Z }.
End Refund.

Inductive Status : Type := CREATED | AUTHORIZED | CANCELLED.

Definition Status_eqb (a b : Status) : bool :=
  match a, b with
  | CREATED, CREATED | AUTHORIZED, AUTHORIZED | CANCELLED, CANCELLED => true
  | _, _ => false
  end.

Module Transaction.
Record t : Type := Build {
  id : UUID;
  amount : Z;
  status : Status;
  authorization_code : string;
  _captures : list Capture.t;
  _refunds : list Refund.t
}.

Definition set_status (s : Status) (self : t) : t :=
  Build (id self) (amount self) s (authorization_code self)
        (_captures self) (_refunds self).

Definition set_captures (cs : list Capture.t) (self : t) : t :=
  Build (id self) (amount self) (status self) (authorization_code self)
        cs (_refunds self).

Definition set_refunds (rs : list Refund.t) (self : t) : t :=
  Build (id self) (amount self) (status self) (authorization_code self)
        (_captures self) rs.

(** [Transaction(amount=..., status=..., authorization_code=...)]: the id
    is the class-level default, the two private lists start empty. *)
Definition __init__ (id_default : UUID) (amount : Z) (status : Status)
    (authorization_code : string) : t :=
  Build id_default amount status authorization_code [] [].

Definition has_captures (self : t) : bool :=
  (0 <? length (_captures self))%nat.

Definition is_cancelled (self : t) : bool := Status_eqb (status self) CANCELLED.

Definition is_authorized (self : t) : bool := Status_eqb (status self) AUTHORIZED.

Definition captured_amount (self : t) : Z := sum (map Capture.amount (_captures self)).

Definition refunded_amount (self : t) : Z := sum (map Refund.amount (_refunds self)).

Definition capture (amount : Z) : Method t Capture.t :=
  do authorized <- gets is_authorized;
  if negb authorized then raise CaptureNotAuthorized else
  do captured_amount <- gets captured_amount;
  do limit <- gets Transaction.amount;
  if captured_amount + amount >? limit then raise CannotCaptureMoreThanAuthorized else
  let capture := Capture.Build amount in
  do _ <- modify (fun self => set_captures (_captures self ++ [capture]) self);
  ret capture.

Definition cancel : Method t unit :=
  do cancelled <- gets is_cancelled;
  if cancelled then ret tt else
  do authorized <- gets is_authorized;
  if negb authorized then raise CancelationNotAuthorized else
  do captures <- gets has_captures;
  if captures then raise CannotCancelCapturedTransaction else
  modify (set_status CANCELLED).

Definition refund (amount : Z) : Method t Refund.t :=
  do captured_amount <- gets captured_amount;
  do refunded_amount <- gets refunded_amount;
  if refunded_amount + amount >? captured_amount then raise CannotRefundMoreThanCaptured else
  let refund := Refund.Build amount in
  do _ <- modify (fun self => set_refunds (_refunds self ++ [refund]) self);
  ret refund.
End Transaction.

(** ** bank/bank.py: Account *)

Module Account.
Record t : Type := Build {
  __balance : Z;
  __authorized_amount : Z;
  __transactions : gmap UUID Transaction.t
}.

Definition set_balance (b : Z) (self : t) : t :=
  Build b (__authorized_amount self) (__transactions self).

Definition set_authorized_amount (a : Z) (self : t) : t :=
  Build (__balance self) a (__transactions self).

Definition set_transactions (m : gmap UUID Transaction.t) (self : t) : t :=
  Build (__balance self) (__authorized_amount self) m.

Definition __init__ (balance : Z) : t := Build balance 0 ∅.

(** [self.__transactions[transaction_id]]: evaluates to a reference to the
    stored object, or raises [KeyError].  The reference is the key. *)
Definition getitem (transaction_id : UUID) : Method t UUID :=
  fun self =>
    match __transactions self !! transaction_id with
    | Some _ => (Returned transaction_id, self)
    | None => (Raised (KeyError transaction_id), self)
    end.

(** [authorization.m(...)]: run a method of the referenced transaction
    object; the object in the dict is the one mutated, whether the
    method returns or raises. *)
Definition call {A} (authorization : UUID) (m : Method Transaction.t A) : Method t A :=
  fun self =>
    match __transactions self !! authorization with
    | Some transaction =>
        let (outcome, transaction') := m transaction in
        (outcome, set_transactions (<[authorization := transaction']> (__transactions self)) self)
    | None => (Raised (KeyError authorization), self)
    end.

Definition __reduce_hold (amount : Z) : Method t unit :=
  do authorized_amount <- gets __authorized_amount;
  if authorized_amount <? amount then raise InsufficientFundsError else
  modify (fun self => set_authorized_amount (__authorized_amount self - amount) self).

Definition __authorize_amount (amount : Z) : Method t unit :=
  if amount <? 0 then raise InvalidAmountError else
  do balance <- gets __balance;
  if balance >=? amount then
    do _ <- modify (fun self => set_balance (__balance self - amount) self);
    modify (fun self => set_authorized_amount (__authorized_amount self + amount) self)
  else raise InsufficientFundsError.

Definition __add_transaction (id_default : UUID) (choices : list N) (amount : Z)
    : Method t Transaction.t :=
  let transaction :=
    Transaction.__init__ id_default amount AUTHORIZED (random_authorization_code choices) in
  do _ <- modify (fun self =>
    set_transactions (<[Transaction.id transaction := transaction]> (__transactions self)) self);
  ret transaction.

Definition deposit (amount : Z) : Method t unit :=
  if amount <? 0 then raise InvalidAmountError else
  modify (fun self => set_balance (__balance self + amount) self).

Definition withdraw (amount : Z) : Method t unit :=
  if amount <? 0 then raise InvalidAmountError else
  do balance <- gets __balance;
  if balance <? amount then raise InsufficientFundsError else
  modify (fun self => set_balance (__balance self - amount) self).

Definition balance : Method t Z := gets __balance.

Definition authorized_amount : Method t Z := gets __authorized_amount.

Definition authorize (id_default : UUID) (choices : list N) (amount : Z) : Method t UUID :=
  do _ <- __authorize_amount amount;
  do transaction <- __add_transaction id_default choices amount;
  ret (Transaction.id transaction).

Definition capture (transaction_id : UUID) (amount : Z) : Method t unit :=
  do authorization <- getitem transaction_id;
  do _ <- call authorization (Transaction.capture amount);
  __reduce_hold amount.

Definition cancel (transaction_id : UUID) : Method t unit :=
  do authorization <- getitem transaction_id;
  do _ <- call authorization Transaction.cancel;
  do amount <- call authorization (gets Transaction.amount);
  do _ <- modify (fun self => set_balance (__balance self + amount) self);
  do amount <- call authorization (gets Transaction.amount);
  modify (fun self => set_authorized_amount (__authorized_amount self - amount) self).

Definition refund (transaction_id : UUID) (amount : Z) : Method t unit :=
  do authorization <- getitem transaction_id;
  do _ <- call authorization (Transaction.refund amount);
  modify (fun self => set_balance (__balance self + amount) self).
End Account.

(** ** Callers

    A caller issues the public methods of one account one after the other
    and, like the tests with [pytest.raises], goes on after an exception. *)

Inductive Call : Type :=
| CallDeposit (amount : Z)
| CallWithdraw (amount : Z)
| CallAuthorize (choices : list N) (amount : Z)
| CallCapture (transaction_id : UUID) (amount : Z)
| CallCancel (transaction_id : UUID)
| CallRefund (transaction_id : UUID) (amount : Z).

(** The value of a call: the new id for [authorize], Python's [None] for
    the other methods. *)
Definition perform (id_default : UUID) (c : Call) : Method Account.t (option UUID) :=
  match c with
  | CallDeposit amount => do _ <- Account.deposit amount; ret None
  | CallWithdraw amount => do _ <- Account.withdraw amount; ret None
  | CallAuthorize choices amount =>
      do transaction_id <- Account.authorize id_default choices amount;
      ret (Some transaction_id)
  | CallCapture transaction_id amount => do _ <- Account.capture transaction_id amount; ret None
  | CallCancel transaction_id => do _ <- Account.cancel transaction_id; ret None
  | CallRefund transaction_id amount => do _ <- Account.refund transaction_id amount; ret None
  end.

Definition run (id_default : UUID) (calls : list Call) (self : Account.t) : Account.t :=
  foldl (fun self c => snd (perform id_default c self)) self calls.

(** The calls a caller can make on a transaction object itself. *)
Inductive TransactionCall : Type :=
| TxCapture (amount : Z)
| TxRefund (amount : Z).

Definition perform_tx (c : TransactionCall) (self : Transaction.t) : Transaction.t :=
  match c with
  | TxCapture amount => snd (Transaction.capture amount self)
  | TxRefund amount => snd (Transaction.refund amount self)
  end.

Definition run_tx (calls : list TransactionCall) (self : Transaction.t) : Transaction.t :=
  foldl (fun self c => perform_tx c self) self calls.

(** ** bank/utils.py: random_card_number

    [length] is the number of digits before the check digit; the digits of
    a card number are in [range(10)], so they and the check value are [N].
    [card_bin], when given, is a non-negative [int]: [str(card_bin)] then
    consists of decimal digits only ([str_digits] below reads them back,
    as [int(n) for n in str(card_bin)] does).  [choices] is the result of
    the one call of [random.choices] that the function makes. *)

Definition sum_N (numbers : list N) : N := foldr N.add 0%N numbers.

Definition luhn_number (length : N) (i n : N) : N :=
  let k := (length mod 2)%N in
  let n := (n * (if ((i + k) mod 2 =? 0)%N then 1 else 2))%N in
  if (n <=? 9)%N then n else (n - 9)%N.

(** [sum(luhn_number(i, n) for i, n in enumerate(number))]. *)
Definition luhn_sum (length : N) (number : list N) : N :=
  sum_N (imap (fun i n => luhn_number length (N.of_nat i) n) number).

(** [0 if checksum == 0 else 10 - checksum % 10]. *)
Definition luhn_check (checksum : N) : N :=
  if (checksum =? 0)%N then 0%N else (10 - checksum mod 10)%N.

(** [int(n)] for a character [n] that is a decimal digit. *)
Definition int_of_digit (n : Ascii.ascii) : N := (Ascii.N_of_ascii n - 48)%N.

(** [[int(n) for n in s]]. *)
Definition str_digits (s : string) : list N :=
  map int_of_digit (list_ascii_of_string s).

Definition random_card_number (length : N) (card_bin : option N) (choices : list N) : string :=
  let number :=
    match card_bin with
    | Some card_bin => str_digits (pretty card_bin) ++ choices
    | None => choices
    end in
  let checksum := luhn_sum length number in
  let checksum := luhn_check checksum in
  concat (number ++ [checksum]).

(** ** bank/bank.py: Bank

    [Bank.__accounts] is a [dict] from account names to account objects; an
    account object is reachable only through it, so a method call on an
    account found there is an update of the map at its name. *)

Module Bank.
Record t : Type := Build {
  __accounts : gmap string Account.t
}.

Definition __init__ : t := Build ∅.

Definition __set_account (name : string) (account : Account.t) : Method t unit :=
  modify (fun self => Build (<[name := account]> (__accounts self))).

(** [self.__accounts[name]], with [KeyError] turned into
    [AccountNotFoundError(name)].  The reference returned is the name. *)
Definition __get_account (name : string) : Method t string :=
  fun self =>
    match __accounts self !! name with
    | Some _ => (Returned name, self)
    | None => (Raised (AccountNotFoundError name), self)
    end.

(** [account.m(...)]: run a method of the referenced account object. *)
Definition call {A} (account : string) (m : Method Account.t A) : Method t A :=
  fun self =>
    match __accounts self !! account with
    | Some object =>
        let (outcome, object') := m object in
        (outcome, Build (<[account := object']> (__accounts self)))
    | None => (Raised (AccountNotFoundError account), self)
    end.

(** [choices] is the draw made by [random_card_number()], called with its
    defaults [length=15] and [card_bin=None]. *)
Definition open_account (choices : list N) (initial_balance : Z) : Method t string :=
  let account_name := random_card_number 15 None choices in
  do _ <- __set_account account_name (Account.__init__ initial_balance);
  ret account_name.

Definition deposit (account_name : string) (amount : Z) : Method t unit :=
  do account <- __get_account account_name;
  call account (Account.deposit amount).

Definition withdraw (account_name : string) (amount : Z) : Method t unit :=
  do account <- __get_account account_name;
  call account (Account.withdraw amount).

Definition balance (account_name : string) : Method t Z :=
  do account <- __get_account account_name;
  call account Account.balance.

Definition authorized_amount (account_name : string) : Method t Z :=
  do account <- __get_account account_name;
  call account Account.authorized_amount.

Definition authorize (id_default : UUID) (choices : list N) (account_name : string)
    (amount : Z) : Method t UUID :=
  do account <- __get_account account_name;
  call account (Account.authorize id_default choices amount).

Definition cancel (account_name : string) (transaction_id : UUID) : Method t unit :=
  do account <- __get_account account_name;
  call account (Account.cancel transaction_id).

Definition capture (account_name : string) (transaction_id : UUID) (amount : Z)
    : Method t unit :=
  do account <- __get_account account_name;
  call account (Account.capture transaction_id amount).

Definition refund (account_name : string) (transaction_id : UUID) (amount : Z)
    : Method t unit :=
  do account <- __get_account account_name;
  call account (Account.refund transaction_id amount).
End Bank.

(** The calls of a client of the bank: opening an account, or one of the
    six mutating methods addressed to an account name. *)
Inductive BankCall : Type :=
| BankOpen (choices : list N) (initial_balance : Z)
| BankOn (account_name : string) (c : Call).

Inductive Value : Type :=
| NoneValue
| NameValue (account_name : string)
| IdValue (transaction_id : UUID).

Definition perform_bank (id_default : UUID) (c : BankCall) : Method Bank.t Value :=
  match c with
  | BankOpen choices initial_balance =>
      do account_name <- Bank.open_account choices initial_balance;
      ret (NameValue account_name)
  | BankOn account_name (CallDeposit amount) =>
      do _ <- Bank.deposit account_name amount; ret NoneValue
  | BankOn account_name (CallWithdraw amount) =>
      do _ <- Bank.withdraw account_name amount; ret NoneValue
  | BankOn account_name (CallAuthorize choices amount) =>
      do transaction_id <- Bank.authorize id_default choices account_name amount;
      ret (IdValue transaction_id)
  | BankOn account_name (CallCapture transaction_id amount) =>
      do _ <- Bank.capture account_name transaction_id amount; ret NoneValue
  | BankOn account_name (CallCancel transaction_id) =>
      do _ <- Bank.cancel account_name transaction_id; ret NoneValue
  | BankOn account_name (CallRefund transaction_id amount) =>
      do _ <- Bank.refund account_name transaction_id amount; ret NoneValue
  end.

Definition run_bank (id_default : UUID) (calls : list BankCall) (self : Bank.t) : Bank.t :=
  foldl (fun self c => snd (perform_bank id_default c self)) self calls.

(** The three methods of a transaction object, as calls. *)
Inductive TransactionMethod : Type :=
| DoCapture (amount : Z)
| DoCancel
| DoRefund (amount : Z).

Definition invoke (c : TransactionMethod) (self : Transaction.t) : Transaction.t :=
  match c with
  | DoCapture amount => snd (Transaction.capture amount self)
  | DoCancel => snd (Transaction.cancel self)
  | DoRefund amount => snd (Transaction.refund amount self)
  end.

Definition invoke_all (calls : list TransactionMethod) (self : Transaction.t) : Transaction.t :=
  foldl (fun self c => invoke c self) self calls.

(** * Vocabulary of the properties *)

(** ** The account as a labelled transition system

    [step id_default c self outcome self'] lists, case by case, what a call
    [c] can do to an account.  It is not an assumption about the code:
    [perform_step] below derives it from the methods. *)

Inductive step (id_default : UUID) : Call -> Account.t -> Outcome (option UUID) -> Account.t -> Prop :=
| step_deposit_invalid amount self :
    amount < 0 ->
    step id_default (CallDeposit amount) self (Raised InvalidAmountError) self
| step_deposit amount self :
    0 <= amount ->
    step id_default (CallDeposit amount) self (Returned None)
      (Account.set_balance (Account.__balance self + amount) self)
| step_withdraw_invalid amount self :
    amount < 0 ->
    step id_default (CallWithdraw amount) self (Raised InvalidAmountError) self
| step_withdraw_insufficient amount self :
    0 <= amount -> Account.__balance self < amount ->
    step id_default (CallWithdraw amount) self (Raised InsufficientFundsError) self
| step_withdraw amount self :
    0 <= amount <= Account.__balance self ->
    step id_default (CallWithdraw amount) self (Returned None)
      (Account.set_balance (Account.__balance self - amount) self)
| step_authorize_invalid choices amount self :
    amount < 0 ->
    step id_default (CallAuthorize choices amount) self (Raised InvalidAmountError) self
| step_authorize_insufficient choices amount self :
    0 <= amount -> Account.__balance self < amount ->
    step id_default (CallAuthorize choices amount) self (Raised InsufficientFundsError) self
| step_authorize choices amount self :
    0 <= amount <= Account.__balance self ->
    step id_default (CallAuthorize choices amount) self (Returned (Some id_default))
      (Account.Build (Account.__balance self - amount)
         (Account.__authorized_amount self + amount)
         (<[id_default :=
              Transaction.Build id_default amount AUTHORIZED
                (random_authorization_code choices) [] []]> (Account.__transactions self)))
| step_capture_unknown k amount self :
    Account.__transactions self !! k = None ->
    step id_default (CallCapture k amount) self (Raised (KeyError k)) self
| step_capture_not_authorized k amount self transaction :
    Account.__transactions self !! k = Some transaction ->
    Transaction.status transaction <> AUTHORIZED ->
    step id_default (CallCapture k amount) self (Raised CaptureNotAuthorized) self
| step_capture_too_much k amount self transaction :
    Account.__transactions self !! k = Some transaction ->
    Transaction.status transaction = AUTHORIZED ->
    Transaction.captured_amount transaction + amount > Transaction.amount transaction ->
    step id_default (CallCapture k amount) self (Raised CannotCaptureMoreThanAuthorized) self
| step_capture_hold_short k amount self transaction :
    Account.__transactions self !! k = Some transaction ->
    Transaction.status transaction = AUTHORIZED ->
    Transaction.captured_amount transaction + amount <= Transaction.amount transaction ->
    Account.__authorized_amount self < amount ->
    step id_default (CallCapture k amount) self (Raised InsufficientFundsError)
      (Account.Build (Account.__balance self) (Account.__authorized_amount self)
         (<[k := Transaction.set_captures
                   (Transaction._captures transaction ++ [Capture.Build amount]) transaction]>
            (Account.__transactions self)))
| step_capture k amount self transaction :
    Account.__transactions self !! k = Some transaction ->
    Transaction.status transaction = AUTHORIZED ->
    Transaction.captured_amount transaction + amount <= Transaction.amount transaction ->
    amount <= Account.__authorized_amount self ->
    step id_default (CallCapture k amount) self (Returned None)
      (Account.Build (Account.__balance self) (Account.__authorized_amount self - amount)
         (<[k := Transaction.set_captures
                   (Transaction._captures transaction ++ [Capture.Build amount]) transaction]>
            (Account.__transactions self)))
| step_cancel_unknown k self :
    Account.__transactions self !! k = None ->
    step id_default (CallCancel k) self (Raised (KeyError k)) self
| step_cancel_again k self transaction :
    Account.__transactions self !! k = Some transaction ->
    Transaction.status transaction = CANCELLED ->
    step id_default (CallCancel k) self (Returned None)
      (Account.Build (Account.__balance self + Transaction.amount transaction)
         (Account.__authorized_amount self - Transaction.amount transaction)
         (Account.__transactions self))
| step_cancel_not_authorized k self transaction :
    Account.__transactions self !! k = Some transaction ->
    Transaction.status transaction = CREATED ->
    step id_default (CallCancel k) self (Raised CancelationNotAuthorized) self
| step_cancel_captured k self transaction :
    Account.__transactions self !! k = Some transaction ->
    Transaction.status transaction = AUTHORIZED ->
    Transaction._captures transaction <> [] ->
    step id_default (CallCancel k) self (Raised CannotCancelCapturedTransaction) self
| step_cancel k self transaction :
    Account.__transactions self !! k = Some transaction ->
    Transaction.status transaction = AUTHORIZED ->
    Transaction._captures transaction = [] ->
    step id_default (CallCancel k) self (Returned None)
      (Account.Build (Account.__balance self + Transaction.amount transaction)
         (Account.__authorized_amount self - Transaction.amount transaction)
         (<[k := Transaction.set_status CANCELLED transaction]> (Account.__transactions self)))
| step_refund_unknown k amount self :
    Account.__transactions self !! k = None ->
    step id_default (CallRefund k amount) self (Raised (KeyError k)) self
| step_refund_too_much k amount self transaction :
    Account.__transactions self !! k = Some transaction ->
    Transaction.refunded_amount transaction + amount > Transaction.captured_amount transaction ->
    step id_default (CallRefund k amount) self (Raised CannotRefundMoreThanCaptured) self
| step_refund k amount self transaction :
    Account.__transactions self !! k = Some transaction ->
    Transaction.refunded_amount transaction + amount <= Transaction.captured_amount transaction ->
    step id_default (CallRefund k amount) self (Returned None)
      (Account.Build (Account.__balance self + amount) (Account.__authorized_amount self)
         (<[k := Transaction.set_refunds
                   (Transaction._refunds transaction ++ [Refund.Build amount]) transaction]>
            (Account.__transactions self))).

(** [stored P self]: every transaction object in the dict satisfies [P]. *)
Definition stored (P : Transaction.t -> Prop) (self : Account.t) : Prop :=
  forall (k : UUID) (transaction : Transaction.t),
    Account.__transactions self !! k = Some transaction -> P transaction.

(** A transaction without captures has no positive refund total, and a
    cancelled transaction has no captures. *)
Definition uncaptured_not_refunded (transaction : Transaction.t) : Prop :=
  (Transaction._captures transaction = [] -> Transaction.refunded_amount transaction <= 0) /\
  (Transaction.status transaction = CANCELLED -> Transaction._captures transaction = []).

(** The two sum bounds of a transaction: captures within the authorized
    amount, refunds within the captures. *)
Definition sums_bounded (transaction : Transaction.t) : Prop :=
  Transaction.captured_amount transaction <= Transaction.amount transaction /\
  Transaction.refunded_amount transaction <= Transaction.captured_amount transaction.

Definition nonnegative_capture (c : TransactionCall) : bool :=
  match c with
  | TxCapture amount => 0 <=? amount
  | TxRefund _ => true
  end.

(** Sequences of calls on a transaction in which no capture has a negative
    amount. *)
Definition capture_amounts_nonnegative (calls : list TransactionCall) : bool :=
  forallb nonnegative_capture calls.

(** Both public reads of an account return numbers that are not negative. *)
Definition nonnegative (self : Account.t) : Prop :=
  exists balance authorized_amount : Z,
    Account.balance self = (Returned balance, self) /\
    Account.authorized_amount self = (Returned authorized_amount, self) /\
    0 <= balance /\ 0 <= authorized_amount.

(** A call is orderly in a state when it is not a refund of a negative
    amount and not a cancel of a transaction that is already cancelled. *)
Definition orderly (self : Account.t) (c : Call) : bool :=
  match c with
  | CallRefund _ amount => 0 <=? amount
  | CallCancel k =>
      match Account.__transactions self !! k with
      | Some transaction => negb (Transaction.is_cancelled transaction)
      | None => true
      end
  | _ => true
  end.

(** A sequence of calls is orderly from a state when each call is orderly
    in the state the calls before it have produced. *)
Fixpoint orderly_run (id_default : UUID) (calls : list Call) (self : Account.t) : bool :=
  match calls with
  | [] => true
  | c :: calls' =>
      orderly self c && orderly_run id_default calls' (snd (perform id_default c self))
  end.

(** The invariant of orderly runs: both numbers are non-negative, the dict
    has no key but the default id, and a stored transaction that can still
    be cancelled holds no more than the authorized amount. *)
Definition holds_covered (id_default : UUID) (self : Account.t) : Prop :=
  0 <= Account.__balance self /\
  0 <= Account.__authorized_amount self /\
  forall (k : UUID) (transaction : Transaction.t),
    Account.__transactions self !! k = Some transaction ->
    k = id_default /\
    0 <= Transaction.amount transaction /\
    (Transaction.status transaction = AUTHORIZED ->
     Transaction._captures transaction = [] ->
     Transaction.amount transaction <= Account.__authorized_amount self).

(** A string is decimal when its characters read as digits of [range(10)]
    and joining these digits gives the string back. *)
Definition decimal (s : string) : Prop :=
  Forall (fun n => (n < 10)%N) (str_digits s) /\ concat (str_digits s) = s.

(** The digits before the check value: those of [card_bin], if given, then
    the drawn ones. *)
Definition card_digits (card_bin : option N) (choices : list N) : list N :=
  match card_bin with
  | Some card_bin => str_digits (pretty card_bin) ++ choices
  | None => choices
  end.

(** What a call adds to [balance + authorized_amount]: a deposit or a
    refund that returns adds its amount, a withdrawal or a capture that
    returns takes its amount away, and nothing else moves funds. *)
Definition funds_moved (c : Call) (outcome : Outcome (option UUID)) : Z :=
  match outcome, c with
  | Returned _, CallDeposit amount => amount
  | Returned _, CallWithdraw amount => - amount
  | Returned _, CallCapture _ amount => - amount
  | Returned _, CallRefund _ amount => amount
  | _, _ => 0
  end.

(** The key of the transaction dict that a call addresses, if any. *)
Definition addressed (id_default : UUID) (c : Call) : option UUID :=
  match c with
  | CallAuthorize _ _ => Some id_default
  | CallCapture k _ | CallCancel k | CallRefund k _ => Some k
  | CallDeposit _ | CallWithdraw _ => None
  end.

(** A call that is not a cancel of a transaction already cancelled. *)
Definition cancels_once (self : Account.t) (c : Call) : bool :=
  match c with
  | CallCancel k =>
      match Account.__transactions self !! k with
      | Some transaction => negb (Transaction.is_cancelled transaction)
      | None => true
      end
  | _ => true
  end.

Fixpoint cancels_once_run (id_default : UUID) (calls : list Call) (self : Account.t) : bool :=
  match calls with
  | [] => true
  | c :: calls' =>
      cancels_once self c && cancels_once_run id_default calls' (snd (perform id_default c self))
  end.

(** The authorized amount is not negative and covers what is left to
    capture of every stored transaction that is still authorized. *)
Definition remainders_covered (id_default : UUID) (self : Account.t) : Prop :=
  0 <= Account.__authorized_amount self /\
  forall (k : UUID) (transaction : Transaction.t),
    Account.__transactions self !! k = Some transaction ->
    k = id_default /\
    (Transaction.status transaction = AUTHORIZED ->
     Transaction.amount transaction - Transaction.captured_amount transaction
       <= Account.__authorized_amount self).

(** What every transaction made by [authorize] satisfies. *)
Definition well_formed (id_default : UUID) (transaction : Transaction.t) : Prop :=
  Transaction.id transaction = id_default /\
  Transaction.status transaction <> CREATED /\
  0 <= Transaction.amount transaction /\
  Transaction.captured_amount transaction <= Transaction.amount transaction.

(** The value a bank call hands back for the value of the account call. *)
Definition value_of (v : option UUID) : Value :=
  match v with
  | Some transaction_id => IdValue transaction_id
  | None => NoneValue
  end.

(** A call whose capture or refund amount, if it has one, is not
    negative. *)
Definition settles_nonnegative (c : Call) : bool :=
  match c with
  | CallCapture _ amount | CallRefund _ amount => 0 <=? amount
  | _ => true
  end.

(** The refunds of a transaction sum to something between 0 and the sum of
    its captures. *)
Definition refunds_within_captures (transaction : Transaction.t) : Prop :=
  0 <= Transaction.refunded_amount transaction /\
  Transaction.refunded_amount transaction <= Transaction.captured_amount transaction.

(** The account name under which a bank call reads or writes. *)
Definition bank_target (c : BankCall) : string :=
  match c with
  | BankOpen choices _ => random_card_number 15 None choices
  | BankOn account_name _ => account_name
  end.

(** * Properties *)

(** ** What each method does, as equations *)

Ltac unfold_method :=
  unfold bind, gets, modify, ret, raise in *.

Lemma Status_eqb_eq (a b : Status) : Status_eqb a b = true <-> a = b.
Proof. destruct a, b; simpl; split; congruence. Qed.

Lemma sum_app (xs ys : list Z) : sum (xs ++ ys) = sum xs + sum ys.
Proof.
  unfold sum. induction xs as [|x xs IH]; simpl; [reflexivity|].
  rewrite IH. lia.
Qed.

Lemma Transaction_capture_eq (amount : Z) (self : Transaction.t) :
  Transaction.capture amount self =
    if negb (Transaction.is_authorized self) then (Raised CaptureNotAuthorized, self)
    else if Transaction.captured_amount self + amount >? Transaction.amount self
    then (Raised CannotCaptureMoreThanAuthorized, self)
    else (Returned (Capture.Build amount),
          Transaction.set_captures (Transaction._captures self ++ [Capture.Build amount]) self).
Proof.
  unfold Transaction.capture. unfold_method.
  destruct (negb _); [reflexivity|]. destruct (_ >? _); reflexivity.
Qed.

Lemma Transaction_cancel_eq (self : Transaction.t) :
  Transaction.cancel self =
    if Transaction.is_cancelled self then (Returned tt, self)
    else if negb (Transaction.is_authorized self) then (Raised CancelationNotAuthorized, self)
    else if Transaction.has_captures self then (Raised CannotCancelCapturedTransaction, self)
    else (Returned tt, Transaction.set_status CANCELLED self).
Proof.
  unfold Transaction.cancel. unfold_method.
  destruct (Transaction.is_cancelled self); [reflexivity|].
  destruct (negb _); [reflexivity|]. destruct (Transaction.has_captures self); reflexivity.
Qed.

Lemma Transaction_refund_eq (amount : Z) (self : Transaction.t) :
  Transaction.refund amount self =
    if Transaction.refunded_amount self + amount >? Transaction.captured_amount self
    then (Raised CannotRefundMoreThanCaptured, self)
    else (Returned (Refund.Build amount),
          Transaction.set_refunds (Transaction._refunds self ++ [Refund.Build amount]) self).
Proof.
  unfold Transaction.refund. unfold_method. destruct (_ >? _); reflexivity.
Qed.

(** A method of a transaction either leaves the object as it is or returns. *)
Lemma Transaction_capture_raise (amount : Z) (self self' : Transaction.t) (e : Exception) :
  Transaction.capture amount self = (Raised e, self') -> self' = self.
Proof.
  rewrite Transaction_capture_eq.
  destruct (negb _); [congruence|]. destruct (_ >? _); congruence.
Qed.

Lemma Transaction_cancel_raise (self self' : Transaction.t) (e : Exception) :
  Transaction.cancel self = (Raised e, self') -> self' = self.
Proof.
  rewrite Transaction_cancel_eq.
  destruct (Transaction.is_cancelled self); [congruence|].
  destruct (negb _); [congruence|]. destruct (Transaction.has_captures self); congruence.
Qed.

Lemma Transaction_refund_raise (amount : Z) (self self' : Transaction.t) (e : Exception) :
  Transaction.refund amount self = (Raised e, self') -> self' = self.
Proof.
  rewrite Transaction_refund_eq. destruct (_ >? _); congruence.
Qed.

Lemma Account_eta (self : Account.t) :
  Account.Build (Account.__balance self) (Account.__authorized_amount self)
                (Account.__transactions self) = self.
Proof. destruct self; reflexivity. Qed.

(** Writing an unchanged object back is no change of the dict. *)
Lemma set_transactions_same (self : Account.t) (k : UUID) (transaction : Transaction.t) :
  Account.__transactions self !! k = Some transaction ->
  Account.set_transactions (<[k := transaction]> (Account.__transactions self)) self = self.
Proof.
  intros H. unfold Account.set_transactions. rewrite insert_id by exact H.
  apply Account_eta.
Qed.

Lemma Account_call_eq {A} (k : UUID) (m : Method Transaction.t A) (self : Account.t)
    (transaction : Transaction.t) :
  Account.__transactions self !! k = Some transaction ->
  Account.call k m self =
    (fst (m transaction),
     Account.set_transactions (<[k := snd (m transaction)]> (Account.__transactions self)) self).
Proof.
  intros H. unfold Account.call. rewrite H. destruct (m transaction); reflexivity.
Qed.

Lemma Account_getitem_eq (k : UUID) (self : Account.t) (transaction : Transaction.t) :
  Account.__transactions self !! k = Some transaction ->
  Account.getitem k self = (Returned k, self).
Proof. intros H. unfold Account.getitem. rewrite H. reflexivity. Qed.

Lemma Account_authorize_eq (id_default : UUID) (choices : list N) (amount : Z) (self : Account.t) :
  Account.authorize id_default choices amount self =
    if amount <? 0 then (Raised InvalidAmountError, self)
    else if Account.__balance self >=? amount then
      (Returned id_default,
       Account.Build (Account.__balance self - amount)
         (Account.__authorized_amount self + amount)
         (<[id_default :=
              Transaction.Build id_default amount AUTHORIZED
                (random_authorization_code choices) [] []]> (Account.__transactions self)))
    else (Raised InsufficientFundsError, self).
Proof.
  unfold Account.authorize, Account.__authorize_amount, Account.__add_transaction.
  unfold_method.
  destruct (amount <? 0); [reflexivity|].
  destruct (_ >=? _); reflexivity.
Qed.

Lemma Account_capture_eq (k : UUID) (amount : Z) (self : Account.t) (transaction : Transaction.t) :
  Account.__transactions self !! k = Some transaction ->
  Account.capture k amount self =
    match Transaction.capture amount transaction with
    | (Raised e, _) => (Raised e, self)
    | (Returned _, transaction') =>
        let self' :=
          Account.set_transactions (<[k := transaction']> (Account.__transactions self)) self in
        if Account.__authorized_amount self <? amount then (Raised InsufficientFundsError, self')
        else (Returned tt,
              Account.set_authorized_amount (Account.__authorized_amount self - amount) self')
    end.
Proof.
  intros H. unfold Account.capture, Account.__reduce_hold. unfold bind at 1.
  rewrite (Account_getitem_eq _ _ _ H). unfold bind at 1.
  rewrite (Account_call_eq _ _ _ _ H).
  destruct (Transaction.capture amount transaction) as [[c|e] transaction'] eqn:E; simpl.
  - unfold_method. simpl. destruct (_ <? _); reflexivity.
  - apply Transaction_capture_raise in E. subst transaction'.
    rewrite (set_transactions_same _ _ _ H). reflexivity.
Qed.

Lemma Account_cancel_eq (k : UUID) (self : Account.t) (transaction : Transaction.t) :
  Account.__transactions self !! k = Some transaction ->
  Account.cancel k self =
    match Transaction.cancel transaction with
    | (Raised e, _) => (Raised e, self)
    | (Returned _, transaction') =>
        (Returned tt,
         Account.Build (Account.__balance self + Transaction.amount transaction')
           (Account.__authorized_amount self - Transaction.amount transaction')
           (<[k := transaction']> (Account.__transactions self)))
    end.
Proof.
  intros H. unfold Account.cancel. unfold bind at 1.
  rewrite (Account_getitem_eq _ _ _ H). unfold bind at 1.
  rewrite (Account_call_eq _ _ _ _ H).
  destruct (Transaction.cancel transaction) as [[[]|e] transaction'] eqn:E; simpl.
  - unfold bind, Account.call, modify, gets. simpl.
    repeat (first [rewrite lookup_insert_eq | rewrite insert_insert_eq]; simpl).
    reflexivity.
  - apply Transaction_cancel_raise in E. subst transaction'.
    rewrite (set_transactions_same _ _ _ H). reflexivity.
Qed.

Lemma Account_refund_eq (k : UUID) (amount : Z) (self : Account.t) (transaction : Transaction.t) :
  Account.__transactions self !! k = Some transaction ->
  Account.refund k amount self =
    match Transaction.refund amount transaction with
    | (Raised e, _) => (Raised e, self)
    | (Returned _, transaction') =>
        (Returned tt,
         Account.Build (Account.__balance self + amount) (Account.__authorized_amount self)
           (<[k := transaction']> (Account.__transactions self)))
    end.
Proof.
  intros H. unfold Account.refund. unfold bind at 1.
  rewrite (Account_getitem_eq _ _ _ H). unfold bind at 1.
  rewrite (Account_call_eq _ _ _ _ H).
  destruct (Transaction.refund amount transaction) as [[r|e] transaction'] eqn:E; simpl.
  - reflexivity.
  - apply Transaction_refund_raise in E. subst transaction'.
    rewrite (set_transactions_same _ _ _ H). reflexivity.
Qed.

Lemma Account_deposit_eq (amount : Z) (self : Account.t) :
  Account.deposit amount self =
    if amount <? 0 then (Raised InvalidAmountError, self)
    else (Returned tt, Account.set_balance (Account.__balance self + amount) self).
Proof. unfold Account.deposit. unfold_method. destruct (_ <? _); reflexivity. Qed.

Lemma Account_withdraw_eq (amount : Z) (self : Account.t) :
  Account.withdraw amount self =
    if amount <? 0 then (Raised InvalidAmountError, self)
    else if Account.__balance self <? amount then (Raised InsufficientFundsError, self)
    else (Returned tt, Account.set_balance (Account.__balance self - amount) self).
Proof.
  unfold Account.withdraw. unfold_method.
  destruct (amount <? 0); [reflexivity|]. destruct (_ <? _); reflexivity.
Qed.

Lemma Account_unknown (k : UUID) (self : Account.t) {A} (rest : UUID -> Method Account.t A) :
  Account.__transactions self !! k = None ->
  bind (Account.getitem k) rest self = (Raised (KeyError k), self).
Proof. intros H. unfold bind, Account.getitem. rewrite H. reflexivity. Qed.

Lemma is_authorized_true (transaction : Transaction.t) :
  Transaction.is_authorized transaction = true <-> Transaction.status transaction = AUTHORIZED.
Proof. apply Status_eqb_eq. Qed.

Lemma is_cancelled_true (transaction : Transaction.t) :
  Transaction.is_cancelled transaction = true <-> Transaction.status transaction = CANCELLED.
Proof. apply Status_eqb_eq. Qed.

Lemma has_captures_false (transaction : Transaction.t) :
  Transaction.has_captures transaction = false <-> Transaction._captures transaction = [].
Proof.
  unfold Transaction.has_captures, Nat.ltb.
  destruct (Transaction._captures transaction); simpl; split; congruence.
Qed.

Lemma bind_ret_eq {S A B} (m : Method S A) (f : A -> B) (self : S) :
  bind m (fun a => ret (f a)) self =
    (match fst (m self) with
     | Returned a => Returned (f a)
     | Raised e => Raised e
     end, snd (m self)).
Proof. unfold bind, ret. destruct (m self) as [[a|e] self']; reflexivity. Qed.

Lemma perform_step (id_default : UUID) (c : Call) (self : Account.t) :
  step id_default c self (fst (perform id_default c self)) (snd (perform id_default c self)).
Proof.
  destruct c as [amount|amount|choices amount|k amount|k|k amount];
    unfold perform;
    rewrite (bind_ret_eq _ (fun _ => None)) || rewrite (bind_ret_eq _ Some).
  - rewrite Account_deposit_eq. destruct (Z.ltb_spec amount 0); simpl.
    + now constructor.
    + now constructor.
  - rewrite Account_withdraw_eq. destruct (Z.ltb_spec amount 0); simpl.
    + now constructor.
    + destruct (Z.ltb_spec (Account.__balance self) amount); simpl.
      * now constructor.
      * constructor. lia.
  - rewrite Account_authorize_eq. destruct (Z.ltb_spec amount 0); simpl.
    + now constructor.
    + destruct (Z.geb_spec (Account.__balance self) amount); simpl.
      * constructor. lia.
      * constructor; lia.
  - destruct (Account.__transactions self !! k) as [transaction|] eqn:Hk.
    + rewrite (Account_capture_eq _ _ _ _ Hk), Transaction_capture_eq.
      destruct (Transaction.is_authorized transaction) eqn:Ha; simpl.
      * apply is_authorized_true in Ha.
        destruct (Z.gtb_spec (Transaction.captured_amount transaction + amount)
                    (Transaction.amount transaction)); simpl.
        -- eapply step_capture_too_much; eauto. lia.
        -- destruct (Z.ltb_spec (Account.__authorized_amount self) amount); simpl.
           ++ eapply step_capture_hold_short; eauto.
           ++ unfold Account.set_authorized_amount, Account.set_transactions; simpl.
              eapply step_capture; eauto.
      * eapply step_capture_not_authorized; eauto.
        intros Hs. apply is_authorized_true in Hs. congruence.
    + unfold Account.capture. rewrite (Account_unknown _ _ _ Hk). simpl.
      now constructor.
  - destruct (Account.__transactions self !! k) as [transaction|] eqn:Hk.
    + rewrite (Account_cancel_eq _ _ _ Hk), Transaction_cancel_eq.
      destruct (Transaction.is_cancelled transaction) eqn:Hc; simpl.
      * apply is_cancelled_true in Hc. rewrite (insert_id _ _ _ Hk).
        eapply step_cancel_again; eauto.
      * destruct (Transaction.is_authorized transaction) eqn:Ha; simpl.
        -- apply is_authorized_true in Ha.
           destruct (Transaction.has_captures transaction) eqn:Hh; simpl.
           ++ eapply step_cancel_captured; eauto.
              intros Hn. apply has_captures_false in Hn. congruence.
           ++ apply has_captures_false in Hh. eapply step_cancel; eauto.
        -- eapply step_cancel_not_authorized; eauto.
           destruct (Transaction.status transaction) eqn:Hs; try reflexivity.
           ++ unfold Transaction.is_authorized in Ha. rewrite Hs in Ha. discriminate.
           ++ unfold Transaction.is_cancelled in Hc. rewrite Hs in Hc. discriminate.
    + unfold Account.cancel. rewrite (Account_unknown _ _ _ Hk). simpl.
      now constructor.
  - destruct (Account.__transactions self !! k) as [transaction|] eqn:Hk.
    + rewrite (Account_refund_eq _ _ _ _ Hk), Transaction_refund_eq.
      destruct (Z.gtb_spec (Transaction.refunded_amount transaction + amount)
                  (Transaction.captured_amount transaction)); simpl.
      * eapply step_refund_too_much; eauto. lia.
      * eapply step_refund; eauto.
    + unfold Account.refund. rewrite (Account_unknown _ _ _ Hk). simpl.
      now constructor.
Qed.

(** ** Lookup of an unknown transaction *)

(** The failure of a dict subscript is outside the [BankError] hierarchy. *)
Lemma KeyError_is_not_a_BankError (k : UUID) : is_BankError (KeyError k) = false.
Proof. reflexivity. Qed.

(** The sibling lookup, [Bank.__get_account], turns the [KeyError] of its
    dict into [AccountNotFoundError], which is a [BankError]. *)
Lemma AccountNotFoundError_is_a_BankError (name : string) :
  is_BankError (AccountNotFoundError name) = true.
Proof. reflexivity. Qed.

(** C6 (the code departs from the claim).  When [transaction_id] is not a
    key of the account's transaction dict, [Account.capture],
    [Account.cancel] and [Account.refund] all fail in the lookup
    [self.__transactions[transaction_id]], before anything else runs, and
    leave the account as it was; but what they raise is the bare [KeyError]
    of the dict subscript, carrying the unknown id.  It is not wrapped into
    an error of the bank: the exception that reaches the caller is not a
    [BankError]. *)
Theorem unknown_transaction_raises_bare_KeyError :
  forall (self : Account.t) (transaction_id : UUID) (amount : Z),
    Account.__transactions self !! transaction_id = None ->
    Account.capture transaction_id amount self = (Raised (KeyError transaction_id), self) /\
    Account.cancel transaction_id self = (Raised (KeyError transaction_id), self) /\
    Account.refund transaction_id amount self = (Raised (KeyError transaction_id), self) /\
    is_BankError (KeyError transaction_id) = false.
Proof.
  intros self transaction_id amount Hnone.
  unfold Account.capture, Account.cancel, Account.refund.
  repeat split; apply Account_unknown; exact Hnone.
Qed.

Lemma unknown_transaction_raises_bare_KeyError_witness :
  Account.capture 7%N 10 (Account.__init__ 1000) = (Raised (KeyError 7%N), Account.__init__ 1000) /\
  Account.cancel 7%N (Account.__init__ 1000) = (Raised (KeyError 7%N), Account.__init__ 1000) /\
  Account.refund 7%N 10 (Account.__init__ 1000) = (Raised (KeyError 7%N), Account.__init__ 1000) /\
  is_BankError (KeyError 7%N) = false.
Proof.
  apply (unknown_transaction_raises_bare_KeyError (Account.__init__ 1000) 7%N 10).
  reflexivity.
Defined.

(** ** The contract of [authorize] *)

(** C7.  [Account.authorize(amount)] raises [InvalidAmountError] when
    [amount < 0]; otherwise raises [InsufficientFundsError] when
    [balance < amount]; otherwise it returns the id of a transaction that it
    has stored under that id, in status [AUTHORIZED], with the requested
    amount, no captures, no refunds and the authorization code generated
    from this call's random draw, and it has moved [amount] from the balance
    to the authorized amount.  In both failure cases the account is
    unchanged. *)
Theorem authorize_contract :
  forall (id_default : UUID) (choices : list N) (amount : Z) (self : Account.t),
    (amount < 0 ->
     Account.authorize id_default choices amount self = (Raised InvalidAmountError, self)) /\
    (0 <= amount -> Account.__balance self < amount ->
     Account.authorize id_default choices amount self = (Raised InsufficientFundsError, self)) /\
    (0 <= amount -> amount <= Account.__balance self ->
     exists transaction : Transaction.t,
       Transaction.amount transaction = amount /\
       Transaction.status transaction = AUTHORIZED /\
       Transaction.authorization_code transaction = random_authorization_code choices /\
       Transaction._captures transaction = [] /\
       Transaction._refunds transaction = [] /\
       Account.authorize id_default choices amount self =
         (Returned (Transaction.id transaction),
          Account.Build (Account.__balance self - amount)
            (Account.__authorized_amount self + amount)
            (<[Transaction.id transaction := transaction]> (Account.__transactions self)))).
Proof.
  intros id_default choices amount self. rewrite Account_authorize_eq.
  repeat split.
  - intros Hneg. destruct (Z.ltb_spec amount 0); [reflexivity | lia].
  - intros Hpos Hlow. destruct (Z.ltb_spec amount 0); [lia|].
    destruct (Z.geb_spec (Account.__balance self) amount); [lia | reflexivity].
  - intros Hpos Hfunds.
    exists (Transaction.Build id_default amount AUTHORIZED
              (random_authorization_code choices) [] []).
    simpl. repeat split.
    destruct (Z.ltb_spec amount 0); [lia|].
    destruct (Z.geb_spec (Account.__balance self) amount); [reflexivity | lia].
Qed.

Lemma authorize_contract_witness :
  Account.authorize 7%N [1; 2; 3; 4; 5; 6]%N (-1) (Account.__init__ 1000)
    = (Raised InvalidAmountError, Account.__init__ 1000) /\
  Account.authorize 7%N [1; 2; 3; 4; 5; 6]%N 1001 (Account.__init__ 1000)
    = (Raised InsufficientFundsError, Account.__init__ 1000) /\
  exists transaction : Transaction.t,
    Transaction.authorization_code transaction = "123456"%string /\
    Account.authorize 7%N [1; 2; 3; 4; 5; 6]%N 100 (Account.__init__ 1000)
      = (Returned (Transaction.id transaction),
         Account.Build 900 100 (<[Transaction.id transaction := transaction]> ∅)).
Proof.
  split; [|split].
  - apply (authorize_contract 7%N [1; 2; 3; 4; 5; 6]%N (-1) (Account.__init__ 1000)). simpl. lia.
  - apply (authorize_contract 7%N [1; 2; 3; 4; 5; 6]%N 1001 (Account.__init__ 1000)); simpl; lia.
  - destruct (authorize_contract 7%N [1; 2; 3; 4; 5; 6]%N 100 (Account.__init__ 1000))
      as (_ & _ & Hok).
    destruct Hok as (transaction & _ & _ & Hcode & _ & _ & Hrun); [simpl; lia | simpl; lia |].
    exists transaction. split; [exact Hcode | exact Hrun].
Defined.

(** ** Authorize, then cancel *)

(** C9.  For every account and every amount [a] with [0 <= a <= balance],
    [authorize(a)] returns an id, [cancel] of that id then returns normally,
    and afterwards the balance and the authorized amount are what they were
    before the [authorize]. *)
Theorem authorize_cancel_round_trip :
  forall (id_default : UUID) (choices : list N) (a : Z) (self : Account.t),
    0 <= a <= Account.__balance self ->
    exists (transaction_id : UUID) (self1 self2 : Account.t),
      Account.authorize id_default choices a self = (Returned transaction_id, self1) /\
      Account.cancel transaction_id self1 = (Returned tt, self2) /\
      Account.__balance self2 = Account.__balance self /\
      Account.__authorized_amount self2 = Account.__authorized_amount self.
Proof.
  intros id_default choices a self [Hpos Hfunds].
  eexists _, _, _. split.
  - rewrite Account_authorize_eq.
    destruct (Z.ltb_spec a 0); [lia|].
    destruct (Z.geb_spec (Account.__balance self) a); [reflexivity | lia].
  - split.
    + erewrite Account_cancel_eq by (simpl; apply lookup_insert_eq).
      rewrite Transaction_cancel_eq. simpl. reflexivity.
    + simpl. lia.
Qed.

Lemma authorize_cancel_round_trip_witness :
  exists (transaction_id : UUID) (self1 self2 : Account.t),
    Account.authorize 7%N [1; 2; 3; 4; 5; 6]%N 100 (Account.__init__ 1000)
      = (Returned transaction_id, self1) /\
    Account.cancel transaction_id self1 = (Returned tt, self2) /\
    Account.__balance self2 = 1000 /\
    Account.__authorized_amount self2 = 0.
Proof.
  apply (authorize_cancel_round_trip 7%N [1; 2; 3; 4; 5; 6]%N 100 (Account.__init__ 1000)).
  simpl. lia.
Defined.

(** ** Reachable accounts *)

(** What holds of a new account and is kept by every step holds after every
    sequence of calls. *)
Lemma run_invariant (id_default : UUID) (P : Account.t -> Prop) :
  (forall c self outcome self', P self -> step id_default c self outcome self' -> P self') ->
  forall (calls : list Call) (self : Account.t), P self -> P (run id_default calls self).
Proof.
  intros Hstep calls. unfold run.
  induction calls as [|c calls IH]; intros self HP; simpl; [exact HP|].
  apply IH. eapply Hstep; [exact HP | apply perform_step].
Qed.

Lemma stored_insert (P : Transaction.t -> Prop) (self : Account.t) (k : UUID)
    (transaction : Transaction.t) (balance authorized_amount : Z) :
  stored P self -> P transaction ->
  stored P (Account.Build balance authorized_amount
              (<[k := transaction]> (Account.__transactions self))).
Proof.
  intros Hall Hnew k' transaction'. simpl. rewrite lookup_insert.
  destruct (decide (k = k')); [congruence | apply Hall].
Qed.

Lemma stored_init (P : Transaction.t -> Prop) (balance : Z) :
  stored P (Account.__init__ balance).
Proof. intros k transaction. simpl. rewrite lookup_empty. discriminate. Qed.

Lemma step_uncaptured_not_refunded (id_default : UUID) (c : Call) (self self' : Account.t)
    (outcome : Outcome (option UUID)) :
  stored uncaptured_not_refunded self ->
  step id_default c self outcome self' ->
  stored uncaptured_not_refunded self'.
Proof.
  intros Hall Hstep.
  destruct Hstep; try exact Hall;
    try (apply stored_insert; [exact Hall|]);
    try match goal with
      | Hk : Account.__transactions _ !! _ = Some ?tx |- _ =>
          destruct (Hall _ _ Hk) as [Hrefunds Hcancelled]
      end.
  - split; simpl; [unfold Transaction.refunded_amount; simpl; lia | discriminate].
  - split; simpl; [intros Happ; destruct (app_cons_not_nil _ _ _ (eq_sym Happ)) | congruence].
  - split; simpl; [intros Happ; destruct (app_cons_not_nil _ _ _ (eq_sym Happ)) | congruence].
  - split; simpl; auto.
  - split; simpl; [|exact Hcancelled].
    intros Hnone. unfold Transaction.refunded_amount, Transaction.captured_amount in *.
    simpl. rewrite map_app, sum_app. simpl. rewrite Hnone in *. simpl in *. lia.
Qed.

Lemma reachable_uncaptured_not_refunded (id_default : UUID) (balance : Z) (calls : list Call) :
  stored uncaptured_not_refunded (run id_default calls (Account.__init__ balance)).
Proof.
  apply run_invariant; [|apply stored_init].
  intros c self outcome self' Hall Hstep.
  eapply step_uncaptured_not_refunded; eassumption.
Qed.

(** ** Refunds of negative amounts *)

(** C10.  [Account.refund] does not look at the sign of [amount].  For every
    account and stored transaction, a refund of [amount < 0] with
    [sum(refunds) + amount <= sum(captures)] returns normally, appends
    [Refund(amount)] to the transaction's refunds and lowers the balance by
    [|amount|]; the authorized amount and every other transaction are
    untouched.  In every account reachable from [Account(balance)] by public
    calls, the condition holds for every stored transaction that has no
    capture or is cancelled. *)
Theorem negative_refund_is_accepted :
  (forall (self : Account.t) (transaction_id : UUID) (transaction : Transaction.t) (amount : Z),
     Account.__transactions self !! transaction_id = Some transaction ->
     amount < 0 ->
     Transaction.refunded_amount transaction + amount <= Transaction.captured_amount transaction ->
     Account.refund transaction_id amount self =
       (Returned tt,
        Account.Build (Account.__balance self - Z.abs amount) (Account.__authorized_amount self)
          (<[transaction_id :=
               Transaction.set_refunds
                 (Transaction._refunds transaction ++ [Refund.Build amount]) transaction]>
             (Account.__transactions self)))) /\
  (forall (id_default : UUID) (balance : Z) (calls : list Call)
          (transaction_id : UUID) (transaction : Transaction.t) (amount : Z),
     Account.__transactions (run id_default calls (Account.__init__ balance)) !! transaction_id
       = Some transaction ->
     amount < 0 ->
     Transaction._captures transaction = [] \/ Transaction.status transaction = CANCELLED ->
     Transaction.refunded_amount transaction + amount <= Transaction.captured_amount transaction).
Proof.
  split.
  - intros self transaction_id transaction amount Hk Hneg Hle.
    rewrite (Account_refund_eq _ _ _ _ Hk), Transaction_refund_eq.
    destruct (Z.gtb_spec (Transaction.refunded_amount transaction + amount)
                (Transaction.captured_amount transaction)); [lia|].
    replace (Account.__balance self - Z.abs amount) with (Account.__balance self + amount)
      by lia.
    reflexivity.
  - intros id_default balance calls transaction_id transaction amount Hk Hneg Hcase.
    destruct (reachable_uncaptured_not_refunded id_default balance calls _ _ Hk)
      as [Hrefunds Hcancelled].
    assert (Hnone : Transaction._captures transaction = []) by (destruct Hcase; auto).
    specialize (Hrefunds Hnone).
    unfold Transaction.captured_amount. rewrite Hnone. simpl. lia.
Qed.

Lemma negative_refund_is_accepted_witness :
  let transaction := Transaction.Build 7%N 100 AUTHORIZED "123456" [] [] in
  Account.refund 7%N (-5) (Account.Build 900 100 {[7%N := transaction]}) =
    (Returned tt,
     Account.Build 895 100
       (<[7%N := Transaction.Build 7%N 100 AUTHORIZED "123456" [] [Refund.Build (-5)]]>
          {[7%N := transaction]})) /\
  Transaction.refunded_amount transaction + -5 <= Transaction.captured_amount transaction.
Proof.
  intros transaction.
  assert (Hle : Transaction.refunded_amount transaction + -5
                <= Transaction.captured_amount transaction).
  { apply (proj2 negative_refund_is_accepted 7%N 1000
             [CallAuthorize [1; 2; 3; 4; 5; 6]%N 100] 7%N transaction (-5)).
    - reflexivity.
    - lia.
    - left. reflexivity. }
  split; [|exact Hle].
  exact (proj1 negative_refund_is_accepted
           (Account.Build 900 100 {[7%N := transaction]}) 7%N transaction (-5)
           eq_refl eq_refl Hle).
Defined.

(** ** Cancelling twice *)

(** [Transaction.cancel] returns without raising on an object that is
    already cancelled, and [Account.cancel] then runs its two assignments
    all the same. *)
Lemma cancel_of_cancelled (self : Account.t) (k : UUID) (transaction : Transaction.t) :
  Account.__transactions self !! k = Some transaction ->
  Transaction.status transaction = CANCELLED ->
  Account.cancel k self =
    (Returned tt,
     Account.Build (Account.__balance self + Transaction.amount transaction)
       (Account.__authorized_amount self - Transaction.amount transaction)
       (Account.__transactions self)).
Proof.
  intros Hk Hstatus.
  rewrite (Account_cancel_eq _ _ _ Hk), Transaction_cancel_eq.
  apply is_cancelled_true in Hstatus. rewrite Hstatus.
  rewrite (insert_id _ _ _ Hk). reflexivity.
Qed.

Lemma run_cons (id_default : UUID) (c : Call) (calls : list Call) (self : Account.t) :
  run id_default (c :: calls) self = run id_default calls (snd (perform id_default c self)).
Proof. reflexivity. Qed.

Lemma run_nil (id_default : UUID) (self : Account.t) : run id_default [] self = self.
Proof. reflexivity. Qed.

(** Evaluation of a call on an account whose dict is known at the key. *)
Ltac eval_call :=
  unfold perform;
  first
    [ rewrite (bind_ret_eq _ (fun _ => None))
    | rewrite (bind_ret_eq _ Some) ];
  first
    [ rewrite Account_authorize_eq
    | rewrite Account_deposit_eq
    | rewrite Account_withdraw_eq
    | erewrite Account_capture_eq by (simpl; apply lookup_insert_eq);
      rewrite Transaction_capture_eq
    | erewrite Account_cancel_eq by (simpl; apply lookup_insert_eq);
      rewrite Transaction_cancel_eq
    | erewrite Account_refund_eq by (simpl; apply lookup_insert_eq);
      rewrite Transaction_refund_eq ];
  simpl; rewrite ?insert_insert_eq.

Ltac eval_run := repeat (rewrite run_cons; eval_call); rewrite ?run_nil.

#[local] Arguments run : simpl never.

(** C1 (the code departs from the claim).  On [Account(1000)],
    [authorize(100)] followed by two [cancel] calls of the returned id: the
    first cancel moves the transaction to [CANCELLED] and restores balance
    1000 and authorized amount 0; the second cancel, on the transaction that
    is now already cancelled, returns normally and releases the hold a
    second time, leaving balance 1100 and authorized amount -100. *)
Theorem cancel_twice_releases_hold_twice :
  forall (id_default : UUID) (choices : list N),
  exists (transaction_id : UUID) (self1 self2 self3 : Account.t) (transaction : Transaction.t),
    Account.authorize id_default choices 100 (Account.__init__ 1000)
      = (Returned transaction_id, self1) /\
    Account.cancel transaction_id self1 = (Returned tt, self2) /\
    Account.__transactions self2 !! transaction_id = Some transaction /\
    Transaction.status transaction = CANCELLED /\
    Account.__balance self2 = 1000 /\
    Account.__authorized_amount self2 = 0 /\
    Account.cancel transaction_id self2 = (Returned tt, self3) /\
    Account.__balance self3 = 1100 /\
    Account.__authorized_amount self3 = -100.
Proof.
  intros id_default choices.
  eexists id_default, _, _, _, _.
  split; [rewrite Account_authorize_eq; simpl; reflexivity|].
  split.
  { erewrite Account_cancel_eq by (simpl; apply lookup_insert_eq).
    rewrite Transaction_cancel_eq. simpl. rewrite insert_insert_eq. reflexivity. }
  split; [simpl; apply lookup_insert_eq|].
  split; [reflexivity|]. split; [reflexivity|]. split; [reflexivity|].
  split.
  { erewrite cancel_of_cancelled; [reflexivity | simpl; apply lookup_insert_eq | reflexivity]. }
  split; reflexivity.
Qed.

(** ** Transaction ids *)

(** Whatever the account and the amount, an [authorize] that returns,
    returns the class-level default id. *)
Lemma authorize_returns_default_id (id_default : UUID) (choices : list N) (amount : Z)
    (self self' : Account.t) (transaction_id : UUID) :
  Account.authorize id_default choices amount self = (Returned transaction_id, self') ->
  transaction_id = id_default.
Proof.
  rewrite Account_authorize_eq.
  destruct (amount <? 0); [discriminate|].
  destruct (_ >=? _); [|discriminate].
  intros H. injection H as H _. symmetry. exact H.
Qed.

(** Every stored transaction sits under the default id, so the dict never
    holds more than one. *)
Lemma reachable_single_key (id_default : UUID) (balance : Z) (calls : list Call) (k : UUID) :
  is_Some (Account.__transactions (run id_default calls (Account.__init__ balance)) !! k) ->
  k = id_default.
Proof.
  revert k.
  apply (run_invariant id_default
           (fun self => forall k, is_Some (Account.__transactions self !! k) -> k = id_default)).
  - intros c self outcome self' Hall Hstep.
    destruct Hstep; try exact Hall; simpl; intros k' Hsome;
      try (rewrite lookup_insert in Hsome; destruct (decide (_ = k')) as [<-|]);
      try (apply Hall; eauto; fail); try reflexivity.
  - intros k Hsome. simpl in Hsome. rewrite lookup_empty in Hsome.
    destruct Hsome; discriminate.
Qed.

(** C3 (the code departs from the claim).  On [Account(1000)], two
    successive successful calls [authorize(100)] and [authorize(50)] return
    the same transaction id; after the second call the dict holds exactly
    one transaction, the second one, under that id, and the first
    transaction is no longer retrievable. *)
Theorem successive_authorizations_share_one_id :
  forall (id_default : UUID) (choices1 choices2 : list N),
  exists (id1 id2 : UUID) (self1 self2 : Account.t),
    Account.authorize id_default choices1 100 (Account.__init__ 1000) = (Returned id1, self1) /\
    Account.authorize id_default choices2 50 self1 = (Returned id2, self2) /\
    id1 = id2 /\
    Account.__transactions self2 =
      {[ id2 := Transaction.Build id2 50 AUTHORIZED (random_authorization_code choices2) [] [] ]} /\
    size (Account.__transactions self2) = 1%nat.
Proof.
  intros id_default choices1 choices2.
  eexists id_default, id_default, _, _.
  split; [rewrite Account_authorize_eq; simpl; reflexivity|].
  split; [rewrite Account_authorize_eq; simpl; reflexivity|].
  split; [reflexivity|].
  simpl. rewrite insert_insert_eq, insert_empty.
  split; [reflexivity | apply map_size_singleton].
Qed.

(** ** Captures of negative amounts *)

(** [Account.capture] passes any amount on: a negative one that respects
    the bound of [Transaction.capture] is recorded, and raises the hold. *)
Lemma capture_of_negative_amount (self : Account.t) (k : UUID) (transaction : Transaction.t)
    (amount : Z) :
  Account.__transactions self !! k = Some transaction ->
  Transaction.status transaction = AUTHORIZED ->
  amount < 0 ->
  Transaction.captured_amount transaction + amount <= Transaction.amount transaction ->
  0 <= Account.__authorized_amount self ->
  Account.capture k amount self =
    (Returned tt,
     Account.Build (Account.__balance self) (Account.__authorized_amount self - amount)
       (<[k := Transaction.set_captures
                 (Transaction._captures transaction ++ [Capture.Build amount]) transaction]>
          (Account.__transactions self))).
Proof.
  intros Hk Hstatus Hneg Hbound Hhold.
  rewrite (Account_capture_eq _ _ _ _ Hk), Transaction_capture_eq.
  apply is_authorized_true in Hstatus. rewrite Hstatus. simpl.
  destruct (Z.gtb_spec (Transaction.captured_amount transaction + amount)
              (Transaction.amount transaction)); [lia|].
  simpl. destruct (Z.ltb_spec (Account.__authorized_amount self) amount); [lia|].
  reflexivity.
Qed.

(** C8 (the code departs from the claim).  On [Account(1000)], after
    [authorize(100)], the call [Account.capture(id, -50)] returns normally:
    no amount validation runs at the account level, [Transaction.capture] is
    reached with the negative amount and appends [Capture(-50)] to the
    transaction, and the authorized amount rises from 100 to 150. *)
Theorem negative_capture_is_recorded :
  forall (id_default : UUID) (choices : list N),
  exists (transaction_id : UUID) (self1 self2 : Account.t) (transaction : Transaction.t),
    Account.authorize id_default choices 100 (Account.__init__ 1000)
      = (Returned transaction_id, self1) /\
    Account.capture transaction_id (-50) self1 = (Returned tt, self2) /\
    Account.__transactions self2 !! transaction_id = Some transaction /\
    Transaction.status transaction = AUTHORIZED /\
    Transaction._captures transaction = [Capture.Build (-50)] /\
    Account.__balance self2 = 900 /\
    Account.__authorized_amount self2 = 150.
Proof.
  intros id_default choices.
  eexists id_default, _, _, _.
  split; [rewrite Account_authorize_eq; simpl; reflexivity|].
  split.
  { erewrite capture_of_negative_amount;
      [reflexivity | simpl; apply lookup_insert_eq | reflexivity | lia
      | vm_compute; discriminate | simpl; lia]. }
  split; [simpl; apply lookup_insert_eq|].
  repeat split.
Qed.

(** ** Sums of captures and refunds of one transaction *)

Lemma captured_amount_app (transaction : Transaction.t) (amount : Z) :
  Transaction.captured_amount
    (Transaction.set_captures (Transaction._captures transaction ++ [Capture.Build amount])
       transaction)
  = Transaction.captured_amount transaction + amount.
Proof.
  unfold Transaction.captured_amount. simpl. rewrite map_app, sum_app. simpl. lia.
Qed.

Lemma refunded_amount_app (transaction : Transaction.t) (amount : Z) :
  Transaction.refunded_amount
    (Transaction.set_refunds (Transaction._refunds transaction ++ [Refund.Build amount])
       transaction)
  = Transaction.refunded_amount transaction + amount.
Proof.
  unfold Transaction.refunded_amount. simpl. rewrite map_app, sum_app. simpl. lia.
Qed.

(** With a capture amount that is not negative, both bounds are kept by a
    call, whether it returns or raises. *)
Lemma perform_tx_sums_bounded (c : TransactionCall) (transaction : Transaction.t) :
  nonnegative_capture c = true ->
  sums_bounded transaction -> sums_bounded (perform_tx c transaction).
Proof.
  intros Hsign [Hcap Href]. destruct c as [amount|amount]; simpl in *.
  - apply Z.leb_le in Hsign. rewrite Transaction_capture_eq.
    destruct (negb _); [split; assumption|].
    destruct (Z.gtb_spec (Transaction.captured_amount transaction + amount)
                (Transaction.amount transaction)) as [Hover|Hfits]; [split; assumption|].
    simpl. split.
    + rewrite captured_amount_app. exact Hfits.
    + rewrite captured_amount_app. unfold Transaction.refunded_amount in *. simpl. lia.
  - rewrite Transaction_refund_eq.
    destruct (Z.gtb_spec (Transaction.refunded_amount transaction + amount)
                (Transaction.captured_amount transaction)) as [Hover|Hfits]; [split; assumption|].
    simpl. split.
    + exact Hcap.
    + rewrite refunded_amount_app. unfold Transaction.captured_amount in *. simpl. lia.
Qed.

Lemma run_tx_sums_bounded (calls : list TransactionCall) (transaction : Transaction.t) :
  capture_amounts_nonnegative calls = true ->
  sums_bounded transaction -> sums_bounded (run_tx calls transaction).
Proof.
  unfold run_tx, capture_amounts_nonnegative. revert transaction.
  induction calls as [|c calls IH]; intros transaction Hsign Hinv; simpl; [exact Hinv|].
  simpl in Hsign. apply andb_prop in Hsign as [Hc Hrest].
  apply IH; [exact Hrest|]. apply perform_tx_sums_bounded; assumption.
Qed.

Lemma capture_amounts_nonnegative_take (n : nat) (calls : list TransactionCall) :
  capture_amounts_nonnegative calls = true ->
  capture_amounts_nonnegative (take n calls) = true.
Proof.
  unfold capture_amounts_nonnegative. revert n.
  induction calls as [|c calls IH]; intros [|n] Hall; simpl; try reflexivity.
  simpl in Hall. apply andb_prop in Hall as [Hc Hrest].
  rewrite Hc. simpl. apply IH. exact Hrest.
Qed.

(** For every transaction created with an amount that is not negative, in
    any status, and every sequence of [capture] and [refund] calls on it in
    which no capture amount is negative, the two bounds hold after every
    prefix of the sequence, whether the calls return or raise. *)
Lemma sums_bounded_with_nonnegative_captures
    (id_default : UUID) (amount : Z) (status : Status) (authorization_code : string)
    (calls : list TransactionCall) (n : nat) :
  0 <= amount ->
  capture_amounts_nonnegative calls = true ->
  sums_bounded
    (run_tx (take n calls) (Transaction.__init__ id_default amount status authorization_code)).
Proof.
  intros Hamount Hsign.
  apply run_tx_sums_bounded.
  - apply capture_amounts_nonnegative_take. exact Hsign.
  - split; unfold Transaction.captured_amount, Transaction.refunded_amount,
      Transaction.__init__, sum; simpl; lia.
Qed.

Example sums_bounded_run :
  sums_bounded
    (run_tx (take 3 [TxCapture 60; TxRefund 50; TxCapture 40; TxRefund (-5); TxCapture 1])
       (Transaction.__init__ 7%N 100 AUTHORIZED "123456")).
Proof.
  apply sums_bounded_with_nonnegative_captures; [lia | reflexivity].
Qed.

(** C5 (the code departs from the claim).  On [Account(1000)], the calls
    [authorize(100)], [capture(id, 50)], [refund(id, 50)] and
    [capture(id, -50)] all return normally, and leave a transaction whose
    recorded captures sum to 0 while its recorded refunds sum to 50: the sum
    of refunds exceeds the sum of captures.  The same three calls made on
    the transaction object itself give the same sums. *)
Theorem negative_capture_breaks_refund_bound :
  forall (id_default : UUID) (choices : list N),
  (exists (self1 self2 self3 self4 : Account.t) (transaction : Transaction.t),
     Account.authorize id_default choices 100 (Account.__init__ 1000)
       = (Returned id_default, self1) /\
     Account.capture id_default 50 self1 = (Returned tt, self2) /\
     Account.refund id_default 50 self2 = (Returned tt, self3) /\
     Account.capture id_default (-50) self3 = (Returned tt, self4) /\
     Account.__transactions self4 !! id_default = Some transaction /\
     Transaction.captured_amount transaction = 0 /\
     Transaction.refunded_amount transaction = 50 /\
     ~ sums_bounded transaction) /\
  (let transaction :=
     run_tx [TxCapture 50; TxRefund 50; TxCapture (-50)]
       (Transaction.__init__ id_default 100 AUTHORIZED (random_authorization_code choices)) in
   Transaction.captured_amount transaction = 0 /\
   Transaction.refunded_amount transaction = 50 /\
   ~ sums_bounded transaction).
Proof.
  intros id_default choices. split.
  - eexists _, _, _, _, _.
    split; [rewrite Account_authorize_eq; simpl; reflexivity|].
    split.
    { erewrite Account_capture_eq by (simpl; apply lookup_insert_eq).
      rewrite Transaction_capture_eq. simpl. rewrite insert_insert_eq. reflexivity. }
    split.
    { erewrite Account_refund_eq by (simpl; apply lookup_insert_eq).
      rewrite Transaction_refund_eq. simpl. rewrite insert_insert_eq. reflexivity. }
    split.
    { erewrite Account_capture_eq by (simpl; apply lookup_insert_eq).
      rewrite Transaction_capture_eq. simpl. rewrite insert_insert_eq. reflexivity. }
    split; [simpl; apply lookup_insert_eq|].
    split; [reflexivity|]. split; [reflexivity|].
    intros [_ Hbound]. vm_compute in Hbound. apply Hbound. reflexivity.
  - simpl. split; [reflexivity|]. split; [reflexivity|].
    intros [_ Hbound]. vm_compute in Hbound. apply Hbound. reflexivity.
Qed.

(** ** Signs of the balance and of the authorized amount *)

Lemma orderly_refund (self : Account.t) (k : UUID) (amount : Z) :
  orderly self (CallRefund k amount) = true -> 0 <= amount.
Proof. simpl. apply Z.leb_le. Qed.

Lemma orderly_cancel (self : Account.t) (k : UUID) (transaction : Transaction.t) :
  orderly self (CallCancel k) = true ->
  Account.__transactions self !! k = Some transaction ->
  Transaction.status transaction <> CANCELLED.
Proof.
  simpl. intros Horderly Hk Hstatus. rewrite Hk in Horderly.
  apply is_cancelled_true in Hstatus. rewrite Hstatus in Horderly. discriminate.
Qed.

Lemma step_holds_covered (id_default : UUID) (c : Call) (self self' : Account.t)
    (outcome : Outcome (option UUID)) :
  holds_covered id_default self -> orderly self c = true ->
  step id_default c self outcome self' ->
  holds_covered id_default self'.
Proof.
  intros (Hbal & Hauth & Hall) Horderly Hstep.
  destruct Hstep;
    try (split; [exact Hbal | split; [exact Hauth | exact Hall]]);
    try (exfalso; eapply orderly_cancel; eauto; fail);
    try (apply orderly_refund in Horderly);
    try match goal with
      | Hk : Account.__transactions _ !! _ = Some _ |- _ =>
          destruct (Hall _ _ Hk) as (Hkey & Hamount & Hhold)
      end;
    try (specialize (Hhold ltac:(assumption) ltac:(assumption)));
    (split; [simpl; lia | split; [simpl; lia|]]);
    intros k' transaction'; simpl; rewrite ?lookup_insert;
    try match goal with
      | |- context [decide (?a = k')] => destruct (decide (a = k')) as [<-|Hne]
      end;
    intros Hk';
    try (apply Hall in Hk'; destruct Hk' as (Hkey' & Hamount' & Hhold');
         repeat split; auto; try congruence; intros; lia);
    injection Hk' as <-; simpl; repeat split; auto; try lia; try discriminate;
    intros _ Happ; destruct (app_cons_not_nil _ _ _ (eq_sym Happ)).
Qed.

Lemma run_holds_covered (id_default : UUID) (calls : list Call) (self : Account.t) :
  holds_covered id_default self -> orderly_run id_default calls self = true ->
  holds_covered id_default (run id_default calls self).
Proof.
  revert self. induction calls as [|c calls IH]; intros self Hinv Hrun; [exact Hinv|].
  simpl in Hrun. apply andb_prop in Hrun as [Hc Hrest].
  rewrite run_cons. apply IH; [|exact Hrest].
  eapply step_holds_covered; [exact Hinv | exact Hc | apply perform_step].
Qed.

(** For every account created with a non-negative initial balance and
    every sequence of public calls, returning or raising, that contains no
    refund of a negative amount and no cancel of a transaction that is
    already cancelled when the cancel is made, [balance()] and
    [authorized_amount()] return numbers that are not negative after the
    sequence. *)
Lemma orderly_calls_keep_amounts_nonnegative
    (id_default : UUID) (balance : Z) (calls : list Call) :
  0 <= balance ->
  orderly_run id_default calls (Account.__init__ balance) = true ->
  nonnegative (run id_default calls (Account.__init__ balance)).
Proof.
  intros Hbalance Hrun.
  destruct (run_holds_covered id_default calls (Account.__init__ balance)) as (Hb & Ha & _).
  - split; [exact Hbalance | split; [simpl; lia|]].
    intros k transaction Hk. simpl in Hk. rewrite lookup_empty in Hk. discriminate.
  - exact Hrun.
  - eexists _, _. repeat split; assumption.
Qed.

Example orderly_calls_run :
  nonnegative
    (run 7%N
       [CallAuthorize [1; 2; 3; 4; 5; 6]%N 100; CallCapture 7%N 60; CallCapture 7%N 50;
        CallCapture 7%N (-10); CallRefund 7%N 20; CallCancel 7%N; CallWithdraw 2000;
        CallAuthorize [6; 5; 4; 3; 2; 1]%N 30; CallCancel 7%N; CallDeposit 5]
       (Account.__init__ 1000)).
Proof.
  apply orderly_calls_keep_amounts_nonnegative; [lia | vm_compute; reflexivity].
Qed.

(** C4 (the code departs from the claim).  On [Account(1000)], after
    [authorize(100)], [cancel(id)], [cancel(id)], the method
    [authorized_amount()] returns -100.  On [Account(0)], after
    [authorize(0)] and [refund(id, -1)], the method [balance()] returns -1.
    In both runs every call returns normally, and neither final account is
    [nonnegative]. *)
Theorem public_calls_reach_negative_amounts :
  forall (id_default : UUID) (choices : list N),
    let twice_cancelled :=
      run id_default
        [CallAuthorize choices 100; CallCancel id_default; CallCancel id_default]
        (Account.__init__ 1000) in
    let refunded :=
      run id_default [CallAuthorize choices 0; CallRefund id_default (-1)]
        (Account.__init__ 0) in
    Account.authorized_amount twice_cancelled = (Returned (-100), twice_cancelled) /\
    Account.balance refunded = (Returned (-1), refunded) /\
    ~ nonnegative twice_cancelled /\
    ~ nonnegative refunded.
Proof.
  intros id_default choices twice_cancelled refunded.
  assert (Hhold : Account.__authorized_amount twice_cancelled = -100).
  { subst twice_cancelled. eval_run. reflexivity. }
  assert (Hbalance : Account.__balance refunded = -1).
  { subst refunded. eval_run. reflexivity. }
  unfold Account.authorized_amount, Account.balance, gets.
  rewrite Hhold, Hbalance. repeat split.
  - intros (b & a & _ & Ha & _ & Hsign).
    unfold Account.authorized_amount, gets in Ha. rewrite Hhold in Ha.
    injection Ha as <-. lia.
  - intros (b & a & Hb & _ & Hsign & _).
    unfold Account.balance, gets in Hb. rewrite Hbalance in Hb.
    injection Hb as <-. lia.
Qed.

(** ** Exceptions and the state they leave *)

(** An exception leaves the account as it was, except for one path: the
    hold check at the end of [Account.capture], which runs after
    [Transaction.capture] has appended the capture. *)
Lemma raise_leaves_account_unchanged (id_default : UUID) (c : Call) (self self' : Account.t)
    (e : Exception) :
  perform id_default c self = (Raised e, self') ->
  self' = self \/
  exists (k : UUID) (amount : Z) (transaction : Transaction.t),
    c = CallCapture k amount /\
    e = InsufficientFundsError /\
    Account.__transactions self !! k = Some transaction /\
    Account.__authorized_amount self < amount /\
    self' = Account.set_transactions
              (<[k := Transaction.set_captures
                        (Transaction._captures transaction ++ [Capture.Build amount])
                        transaction]> (Account.__transactions self)) self.
Proof.
  intros Hperform. pose proof (perform_step id_default c self) as Hstep.
  rewrite Hperform in Hstep. simpl in Hstep.
  inversion Hstep; subst; try (left; reflexivity).
  right. eexists _, _, _. repeat split; eauto.
Qed.

(** The hold check cannot fail while the stored transaction holds no more
    than the authorized amount. *)
Lemma capture_is_atomic_when_hold_covers (k : UUID) (amount : Z) (self self' : Account.t)
    (transaction : Transaction.t) (e : Exception) :
  Account.__transactions self !! k = Some transaction ->
  Transaction.amount transaction - Transaction.captured_amount transaction
    <= Account.__authorized_amount self ->
  Account.capture k amount self = (Raised e, self') ->
  self' = self.
Proof.
  intros Hk Hcover. rewrite (Account_capture_eq _ _ _ _ Hk), Transaction_capture_eq.
  destruct (negb _); [congruence|].
  destruct (Z.gtb_spec (Transaction.captured_amount transaction + amount)
              (Transaction.amount transaction)); [congruence|].
  destruct (Z.ltb_spec (Account.__authorized_amount self) amount); [lia | discriminate].
Qed.

(** C2 (the code departs from the claim).  On [Account(1000)], after
    [authorize(100)], [cancel(id)], [cancel(id)], [authorize(50)] the
    authorized amount is -50 and the stored transaction has no capture; the
    call [capture(id, 50)] then raises [InsufficientFundsError] from the
    hold check, and the account it leaves is not the account it found: the
    transaction's capture list now holds [Capture(50)].  Balance, authorized
    amount and status are as before the call. *)
Theorem failed_capture_leaves_a_capture_record :
  forall (id_default : UUID) (choices : list N),
  let self :=
    run id_default
      [CallAuthorize choices 100; CallCancel id_default; CallCancel id_default;
       CallAuthorize choices 50]
      (Account.__init__ 1000) in
  exists (self' : Account.t) (before after : Transaction.t),
    Account.__transactions self !! id_default = Some before /\
    Transaction._captures before = [] /\
    Account.capture id_default 50 self = (Raised InsufficientFundsError, self') /\
    Account.__transactions self' !! id_default = Some after /\
    Transaction._captures after = [Capture.Build 50] /\
    Transaction.status after = Transaction.status before /\
    Account.__balance self' = Account.__balance self /\
    Account.__authorized_amount self' = Account.__authorized_amount self /\
    Account.__authorized_amount self = -50 /\
    self' <> self.
Proof.
  intros id_default choices self.
  assert (Hself : self =
            Account.Build 1050 (-50)
              {[ id_default :=
                   Transaction.Build id_default 50 AUTHORIZED
                     (random_authorization_code choices) [] [] ]}).
  { subst self. eval_run. rewrite insert_empty. reflexivity. }
  rewrite Hself. eexists _, _, _.
  split; [simpl; apply lookup_singleton_eq|].
  split; [reflexivity|].
  split.
  { erewrite Account_capture_eq by (simpl; apply lookup_singleton_eq).
    rewrite Transaction_capture_eq. simpl. rewrite insert_singleton_eq. reflexivity. }
  split; [simpl; apply lookup_singleton_eq|].
  repeat (split; [reflexivity|]).
  intros Heq. apply (f_equal (fun s => Account.__transactions s !! id_default)) in Heq.
  simpl in Heq. rewrite !lookup_singleton_eq in Heq. discriminate.
Qed.

(** * Further properties of the code *)

(** ** bank/utils.py: strings of digits *)

Lemma append_length (s1 s2 : string) :
  String.length (s1 +:+ s2) = (String.length s1 + String.length s2)%nat.
Proof.
  induction s1 as [|c s1 IH]; [reflexivity|].
  change (S (String.length (s1 +:+ s2)) = S (String.length s1 + String.length s2)).
  now rewrite IH.
Qed.

Lemma append_empty_r (s : string) : s +:+ "" = s.
Proof.
  induction s as [|c s IH]; [reflexivity|].
  change (String c (s +:+ "") = String c s). now rewrite IH.
Qed.

Lemma append_assoc (s1 s2 s3 : string) : (s1 +:+ s2) +:+ s3 = s1 +:+ (s2 +:+ s3).
Proof.
  induction s1 as [|c s1 IH]; [reflexivity|].
  change (String c ((s1 +:+ s2) +:+ s3) = String c (s1 +:+ (s2 +:+ s3))). now rewrite IH.
Qed.

Lemma str_digits_append (s1 s2 : string) :
  str_digits (s1 +:+ s2) = str_digits s1 ++ str_digits s2.
Proof.
  unfold str_digits. induction s1 as [|c s1 IH]; [reflexivity|].
  change (int_of_digit c :: map int_of_digit (list_ascii_of_string (s1 +:+ s2))
          = int_of_digit c :: (map int_of_digit (list_ascii_of_string s1)
                               ++ map int_of_digit (list_ascii_of_string s2))).
  now rewrite IH.
Qed.

Lemma digit_cases (n : N) :
  (n < 10)%N ->
  n = 0%N \/ n = 1%N \/ n = 2%N \/ n = 3%N \/ n = 4%N \/
  n = 5%N \/ n = 6%N \/ n = 7%N \/ n = 8%N \/ n = 9%N.
Proof. lia. Qed.

(** [str] of a digit is the one character of that digit, and [int] reads it
    back. *)
Lemma pretty_digit (n : N) :
  (n < 10)%N -> pretty n = String (pretty_N_char n) "".
Proof.
  intros Hn. destruct (digit_cases n Hn) as [->|[->|[->|[->|[->|[->|[->|[->|[->| ->]]]]]]]]];
    reflexivity.
Qed.

Lemma int_of_digit_char (n : N) :
  (n < 10)%N -> int_of_digit (pretty_N_char n) = n.
Proof.
  intros Hn. destruct (digit_cases n Hn) as [->|[->|[->|[->|[->|[->|[->|[->|[->| ->]]]]]]]]];
    reflexivity.
Qed.

Lemma concat_app (xs ys : list N) : concat (xs ++ ys) = concat xs +:+ concat ys.
Proof.
  unfold concat. induction xs as [|x xs IH]; simpl; [reflexivity|].
  rewrite IH, append_assoc. reflexivity.
Qed.

Lemma concat_digits_length (numbers : list N) :
  Forall (fun n => (n < 10)%N) numbers ->
  String.length (concat numbers) = length numbers.
Proof.
  unfold concat. induction 1 as [|n numbers Hn _ IH]; simpl; [reflexivity|].
  rewrite append_length, IH, (pretty_digit n Hn). reflexivity.
Qed.

Lemma str_digits_concat (numbers : list N) :
  Forall (fun n => (n < 10)%N) numbers ->
  str_digits (concat numbers) = numbers.
Proof.
  unfold concat. induction 1 as [|n numbers Hn _ IH]; simpl; [reflexivity|].
  rewrite str_digits_append, IH, (pretty_digit n Hn).
  unfold str_digits. simpl. rewrite (int_of_digit_char n Hn). reflexivity.
Qed.

(** X1.  For a draw of digits from [range(10)], the authorization code has
    one character per drawn digit (six for the draw of six that the code
    makes), and reading the characters back as digits gives the draw: two
    different draws never give the same code. *)
Theorem authorization_code_reads_back :
  forall choices : list N,
    Forall (fun n => (n < 10)%N) choices ->
    String.length (random_authorization_code choices) = length choices /\
    str_digits (random_authorization_code choices) = choices /\
    (forall choices' : list N,
       Forall (fun n => (n < 10)%N) choices' ->
       random_authorization_code choices' = random_authorization_code choices ->
       choices' = choices).
Proof.
  intros choices Hdigits. unfold random_authorization_code.
  split; [apply concat_digits_length; exact Hdigits|].
  split; [apply str_digits_concat; exact Hdigits|].
  intros choices' Hdigits' Hsame.
  rewrite <- (str_digits_concat choices' Hdigits'), Hsame.
  apply str_digits_concat. exact Hdigits.
Qed.

Lemma authorization_code_reads_back_witness :
  String.length (random_authorization_code [4; 0; 7; 7; 1; 9]%N) = 6%nat /\
  str_digits (random_authorization_code [4; 0; 7; 7; 1; 9]%N) = [4; 0; 7; 7; 1; 9]%N.
Proof.
  destruct (authorization_code_reads_back [4; 0; 7; 7; 1; 9]%N) as (Hlength & Hdigits & _).
  - repeat constructor.
  - split; [exact Hlength | exact Hdigits].
Defined.

(** ** bank/utils.py: the check value of a card number *)

Lemma luhn_check_le (checksum : N) : (luhn_check checksum <= 10)%N.
Proof.
  unfold luhn_check. destruct (checksum =? 0)%N; [lia|].
  generalize (checksum mod 10)%N. intros r. lia.
Qed.

Lemma luhn_check_ten (checksum : N) :
  luhn_check checksum = 10%N <-> checksum <> 0%N /\ (checksum mod 10 = 0)%N.
Proof.
  unfold luhn_check. destruct (N.eqb_spec checksum 0) as [->|Hne].
  - split; [discriminate | intros [Hne _]; congruence].
  - pose proof (N.mod_lt checksum 10 ltac:(discriminate)) as Hlt.
    revert Hlt. generalize (checksum mod 10)%N. intros r Hlt. split.
    + intros Hten. split; [exact Hne | lia].
    + intros [_ Hzero]. rewrite Hzero. reflexivity.
Qed.

Lemma luhn_check_total (checksum : N) :
  ((checksum + luhn_check checksum) mod 10 = 0)%N.
Proof.
  unfold luhn_check. destruct (N.eqb_spec checksum 0) as [->|Hne]; [reflexivity|].
  pose proof (N.mod_lt checksum 10 ltac:(discriminate)) as Hlt.
  pose proof (N.div_mod checksum 10 ltac:(discriminate)) as Hdiv.
  assert (Hsum : (checksum + (10 - checksum mod 10) = (checksum / 10 + 1) * 10)%N).
  { revert Hlt Hdiv. generalize (checksum mod 10)%N (checksum / 10)%N. intros r q Hlt Hdiv. lia. }
  rewrite Hsum. apply N.Div0.mod_mul.
Qed.

Lemma sum_N_app (xs ys : list N) : sum_N (xs ++ ys) = (sum_N xs + sum_N ys)%N.
Proof.
  unfold sum_N. induction xs as [|x xs IH]; simpl; [reflexivity|]. rewrite IH. lia.
Qed.

Lemma luhn_sum_snoc (length : N) (number : list N) (n : N) :
  luhn_sum length (number ++ [n])
  = (luhn_sum length number + luhn_number length (N.of_nat (List.length number)) n)%N.
Proof.
  unfold luhn_sum. rewrite imap_app, sum_N_app. f_equal.
  cbn [imap]. unfold sum_N. cbn [foldr]. rewrite Nat.add_0_r, N.add_0_r. reflexivity.
Qed.

(** The position after [length] digits is never doubled. *)
Lemma luhn_number_check_position (length n : N) :
  (n <= 9)%N -> luhn_number length length n = n.
Proof.
  intros Hn. unfold luhn_number.
  assert (Hparity : ((length + length mod 2) mod 2 = 0)%N).
  { rewrite N.Div0.add_mod_idemp_r.
    replace (length + length)%N with (length * 2)%N by lia. apply N.Div0.mod_mul. }
  rewrite Hparity. simpl. rewrite N.mul_1_r.
  destruct (N.leb_spec n 9); [reflexivity | lia].
Qed.

Lemma decimal_cons (d : N) (s : string) :
  (d < 10)%N -> decimal s -> decimal (String (pretty_N_char d) s).
Proof.
  intros Hd [Hall Hjoin]. unfold decimal, str_digits in *. simpl.
  rewrite (int_of_digit_char d Hd). split; [constructor; assumption|].
  unfold concat in *. simpl. rewrite Hjoin, (pretty_digit d Hd). reflexivity.
Qed.

Lemma pretty_N_go_decimal (x : N) (s : string) : decimal s -> decimal (pretty_N_go x s).
Proof.
  revert s. induction (N.lt_wf_0 x) as [x _ IH]; intros s Hs.
  destruct (N.eq_dec x 0%N) as [->|Hne]; [rewrite pretty_N_go_0; exact Hs|].
  rewrite pretty_N_go_step by lia. apply IH.
  - apply N.div_lt; lia.
  - apply decimal_cons; [apply N.mod_lt; discriminate | exact Hs].
Qed.

Lemma pretty_decimal (x : N) : decimal (pretty x).
Proof.
  unfold pretty, pretty_N. destruct (decide (x = 0%N)).
  - split; [repeat constructor | reflexivity].
  - apply pretty_N_go_decimal. split; [constructor | reflexivity].
Qed.

Lemma card_digits_are_digits (card_bin : option N) (choices : list N) :
  Forall (fun n => (n < 10)%N) choices ->
  Forall (fun n => (n < 10)%N) (card_digits card_bin choices).
Proof.
  intros Hchoices. destruct card_bin as [card_bin|]; simpl; [|exact Hchoices].
  apply Forall_app. split; [apply pretty_decimal | exact Hchoices].
Qed.

Lemma random_card_number_eq (length : N) (card_bin : option N) (choices : list N) :
  random_card_number length card_bin choices
  = concat (card_digits card_bin choices)
    +:+ pretty (luhn_check (luhn_sum length (card_digits card_bin choices))).
Proof.
  unfold random_card_number. fold (card_digits card_bin choices).
  rewrite concat_app. unfold concat at 2. simpl. rewrite append_empty_r. reflexivity.
Qed.

(** X2.  When the digits before the check value are [length] many digits
    from [range(10)] and the check value is a single digit, the card number
    is [length + 1] characters long, its characters read back as those
    digits followed by the check value, and it passes the Luhn test that
    the function itself computes: the Luhn sum of all its digits is a
    multiple of 10. *)
Theorem card_number_passes_luhn :
  forall (length : N) (card_bin : option N) (choices : list N),
    Forall (fun n => (n < 10)%N) choices ->
    N.of_nat (List.length (card_digits card_bin choices)) = length ->
    luhn_check (luhn_sum length (card_digits card_bin choices)) <> 10%N ->
    let number := random_card_number length card_bin choices in
    String.length number = S (List.length (card_digits card_bin choices)) /\
    str_digits number
      = card_digits card_bin choices
        ++ [luhn_check (luhn_sum length (card_digits card_bin choices))] /\
    (luhn_sum length (str_digits number) mod 10 = 0)%N.
Proof.
  intros length card_bin choices Hchoices Hlength Hcheck number.
  pose proof (card_digits_are_digits card_bin choices Hchoices) as Hdigits.
  set (digits := card_digits card_bin choices) in *.
  set (check := luhn_check (luhn_sum length digits)) in *.
  assert (Hsmall : (check < 10)%N).
  { pose proof (luhn_check_le (luhn_sum length digits)). subst check. lia. }
  assert (Hall : Forall (fun n => (n < 10)%N) (digits ++ [check])).
  { apply Forall_app. split; [exact Hdigits | repeat constructor; exact Hsmall]. }
  assert (Hnumber : number = concat (digits ++ [check])) by reflexivity.
  rewrite Hnumber. split; [|split].
  - rewrite (concat_digits_length _ Hall), length_app. simpl. lia.
  - apply str_digits_concat. exact Hall.
  - rewrite (str_digits_concat _ Hall), luhn_sum_snoc, Hlength.
    rewrite luhn_number_check_position by lia.
    apply luhn_check_total.
Qed.

Lemma card_number_passes_luhn_witness :
  random_card_number 15 None [4; 5; 3; 9; 1; 4; 8; 8; 0; 3; 4; 3; 6; 4; 6]%N
    = "4539148803436467" /\
  (luhn_sum 15 (str_digits "4539148803436467") mod 10 = 0)%N.
Proof.
  split; [reflexivity|].
  apply (card_number_passes_luhn 15 None [4; 5; 3; 9; 1; 4; 8; 8; 0; 3; 4; 3; 6; 4; 6]%N).
  - repeat constructor.
  - reflexivity.
  - vm_compute. discriminate.
Defined.

(** X3.  The check value is [10], not a digit, exactly when the Luhn sum of
    the digits is a positive multiple of 10; the card number then ends in
    the two characters "10" and is one character longer than otherwise:
    [length + 2] characters for [length] digits from [range(10)], against
    [length + 1] when the check value is a digit. *)
Theorem card_number_check_value_ten :
  forall (length : N) (card_bin : option N) (choices : list N),
    Forall (fun n => (n < 10)%N) choices ->
    let digits := card_digits card_bin choices in
    let number := random_card_number length card_bin choices in
    (luhn_check (luhn_sum length digits) = 10%N <->
     luhn_sum length digits <> 0%N /\ (luhn_sum length digits mod 10 = 0)%N) /\
    (luhn_check (luhn_sum length digits) = 10%N ->
     number = concat digits +:+ "10" /\
     String.length number = S (S (List.length digits))) /\
    (luhn_check (luhn_sum length digits) <> 10%N ->
     String.length number = S (List.length digits)).
Proof.
  intros length card_bin choices Hchoices digits number.
  pose proof (card_digits_are_digits card_bin choices Hchoices) as Hdigits.
  fold digits in Hdigits.
  assert (Hnumber : number = concat digits +:+ pretty (luhn_check (luhn_sum length digits))).
  { apply random_card_number_eq. }
  split; [apply luhn_check_ten|]. split.
  - intros Hten. rewrite Hnumber, Hten. split; [reflexivity|].
    rewrite append_length, (concat_digits_length _ Hdigits). simpl. lia.
  - intros Hcheck. rewrite Hnumber, append_length, (concat_digits_length _ Hdigits).
    rewrite pretty_digit; [simpl; lia|].
    pose proof (luhn_check_le (luhn_sum length digits)). lia.
Qed.

Lemma card_number_check_value_ten_witness :
  random_card_number 15 None [0; 1; 0; 9; 0; 0; 0; 0; 0; 0; 0; 0; 0; 0; 0]%N
    = "01090000000000010" /\
  String.length (random_card_number 15 None [0; 1; 0; 9; 0; 0; 0; 0; 0; 0; 0; 0; 0; 0; 0]%N)
    = 17%nat.
Proof.
  destruct (card_number_check_value_ten 15 None
              [0; 1; 0; 9; 0; 0; 0; 0; 0; 0; 0; 0; 0; 0; 0]%N)
    as (_ & Hten & _); [repeat constructor|].
  destruct Hten as [Hnumber Hlength]; [reflexivity|].
  split; [exact Hnumber | exact Hlength].
Defined.

(** X4.  With a [card_bin], the card number starts with the decimal digits
    of [card_bin], followed by the drawn digits and the check value. *)
Theorem card_number_starts_with_bin :
  forall (length : N) (card_bin : N) (choices : list N),
    random_card_number length (Some card_bin) choices
    = pretty card_bin
      +:+ concat choices
      +:+ pretty (luhn_check (luhn_sum length (str_digits (pretty card_bin) ++ choices))).
Proof.
  intros length card_bin choices.
  rewrite random_card_number_eq. simpl.
  rewrite concat_app, append_assoc.
  destruct (pretty_decimal card_bin) as [_ Hjoin]. rewrite Hjoin. reflexivity.
Qed.

(** ** Transaction: what sequences of method calls can do *)

(** One call leaves the object as it was, appends one capture to an
    authorized transaction within its amount, cancels an authorized
    transaction without captures, or appends one refund within the captured
    total. *)
Lemma invoke_cases (c : TransactionMethod) (self : Transaction.t) :
  invoke c self = self \/
  (exists amount,
     Transaction.status self = AUTHORIZED /\
     Transaction.captured_amount self + amount <= Transaction.amount self /\
     invoke c self
       = Transaction.set_captures (Transaction._captures self ++ [Capture.Build amount]) self) \/
  (Transaction.status self = AUTHORIZED /\
   Transaction._captures self = [] /\
   invoke c self = Transaction.set_status CANCELLED self) \/
  (exists amount,
     Transaction.refunded_amount self + amount <= Transaction.captured_amount self /\
     invoke c self
       = Transaction.set_refunds (Transaction._refunds self ++ [Refund.Build amount]) self).
Proof.
  destruct c as [amount| |amount]; simpl.
  - rewrite Transaction_capture_eq.
    destruct (Transaction.is_authorized self) eqn:Ha; simpl; [|left; reflexivity].
    destruct (Z.gtb_spec (Transaction.captured_amount self + amount) (Transaction.amount self));
      simpl; [left; reflexivity|].
    right; left. exists amount. apply is_authorized_true in Ha. repeat split; assumption.
  - rewrite Transaction_cancel_eq.
    destruct (Transaction.is_cancelled self); simpl; [left; reflexivity|].
    destruct (Transaction.is_authorized self) eqn:Ha; simpl; [|left; reflexivity].
    destruct (Transaction.has_captures self) eqn:Hc; simpl; [left; reflexivity|].
    right; right; left. apply is_authorized_true in Ha. apply has_captures_false in Hc.
    repeat split; assumption.
  - rewrite Transaction_refund_eq.
    destruct (Z.gtb_spec (Transaction.refunded_amount self + amount)
                (Transaction.captured_amount self)); simpl; [left; reflexivity|].
    right; right; right. exists amount. split; [assumption | reflexivity].
Qed.

Lemma invoke_all_invariant (P : Transaction.t -> Prop) :
  (forall c self, P self -> P (invoke c self)) ->
  forall calls self, P self -> P (invoke_all calls self).
Proof.
  intros Hstep calls. unfold invoke_all.
  induction calls as [|c calls IH]; intros self HP; simpl; [exact HP|].
  apply IH, Hstep, HP.
Qed.

(** X5.  Under any sequence of [capture], [cancel] and [refund] calls on a
    transaction, with any amounts and whether the calls return or raise, the
    status either stays what it was or has gone from [AUTHORIZED] to
    [CANCELLED]: no method leaves [CREATED] or [CANCELLED], and none ever
    enters [AUTHORIZED]. *)
Theorem status_only_moves_to_cancelled :
  forall (calls : list TransactionMethod) (self : Transaction.t),
    Transaction.status (invoke_all calls self) = Transaction.status self \/
    (Transaction.status self = AUTHORIZED /\
     Transaction.status (invoke_all calls self) = CANCELLED).
Proof.
  intros calls self.
  apply (invoke_all_invariant
           (fun self' =>
              Transaction.status self' = Transaction.status self \/
              (Transaction.status self = AUTHORIZED /\ Transaction.status self' = CANCELLED)));
    [|left; reflexivity].
  intros c self' Hprev.
  destruct (invoke_cases c self')
    as [-> | [(amount & _ & _ & ->) | [(Hauth & _ & ->) | (amount & _ & ->)]]];
    simpl; try exact Hprev.
  destruct Hprev as [Hsame | [Hstart Hcancelled]]; [|congruence].
  right. split; [congruence | reflexivity].
Qed.

(** X6.  Under any sequence of calls the id, the amount and the
    authorization code of a transaction never change, and the captures and
    refunds are only ever appended to: the lists before the calls are
    prefixes of the lists after them. *)
Theorem transaction_history_is_append_only :
  forall (calls : list TransactionMethod) (self : Transaction.t),
    Transaction.id (invoke_all calls self) = Transaction.id self /\
    Transaction.amount (invoke_all calls self) = Transaction.amount self /\
    Transaction.authorization_code (invoke_all calls self)
      = Transaction.authorization_code self /\
    (exists captures,
       Transaction._captures (invoke_all calls self) = Transaction._captures self ++ captures) /\
    (exists refunds,
       Transaction._refunds (invoke_all calls self) = Transaction._refunds self ++ refunds).
Proof.
  intros calls self.
  apply (invoke_all_invariant
           (fun self' =>
              Transaction.id self' = Transaction.id self /\
              Transaction.amount self' = Transaction.amount self /\
              Transaction.authorization_code self' = Transaction.authorization_code self /\
              (exists captures,
                 Transaction._captures self' = Transaction._captures self ++ captures) /\
              (exists refunds,
                 Transaction._refunds self' = Transaction._refunds self ++ refunds))).
  - intros c self' (Hid & Hamount & Hcode & [captures Hcaptures] & [refunds Hrefunds]).
    destruct (invoke_cases c self')
      as [-> | [(amount & _ & _ & ->) | [(_ & _ & ->) | (amount & _ & ->)]]];
      simpl; repeat split; eauto.
    + exists (captures ++ [Capture.Build amount]). rewrite Hcaptures, app_assoc. reflexivity.
    + exists (refunds ++ [Refund.Build amount]). rewrite Hrefunds, app_assoc. reflexivity.
  - repeat split; exists []; rewrite app_nil_r; reflexivity.
Qed.

(** X7.  Once a transaction has a recorded capture, no sequence of calls
    changes its status again: in particular it can never be cancelled, and
    [cancel] on it, while it is authorized, raises
    [CannotCancelCapturedTransaction]. *)
Theorem captured_transaction_keeps_status :
  forall (calls : list TransactionMethod) (self : Transaction.t),
    Transaction._captures self <> [] ->
    Transaction.status (invoke_all calls self) = Transaction.status self /\
    Transaction._captures (invoke_all calls self) <> [] /\
    (Transaction.status self = AUTHORIZED ->
     Transaction.cancel (invoke_all calls self)
       = (Raised CannotCancelCapturedTransaction, invoke_all calls self)).
Proof.
  intros calls self Hcaptured.
  assert (Hinv : Transaction.status (invoke_all calls self) = Transaction.status self /\
                 Transaction._captures (invoke_all calls self) <> []).
  { apply (invoke_all_invariant
             (fun self' =>
                Transaction.status self' = Transaction.status self /\
                Transaction._captures self' <> [])); [|split; [reflexivity | exact Hcaptured]].
    intros c self' [Hstatus Hsome].
    destruct (invoke_cases c self')
      as [-> | [(amount & _ & _ & ->) | [(_ & Hnone & _) | (amount & _ & ->)]]];
      simpl; try (split; assumption).
    - split; [exact Hstatus|]. intros Happ. destruct (app_cons_not_nil _ _ _ (eq_sym Happ)).
    - congruence. }
  destruct Hinv as [Hstatus Hsome]. split; [exact Hstatus|]. split; [exact Hsome|].
  intros Hauth. rewrite Transaction_cancel_eq.
  unfold Transaction.is_cancelled, Transaction.is_authorized. rewrite Hstatus, Hauth. simpl.
  destruct (Transaction.has_captures (invoke_all calls self)) eqn:Hhas; [reflexivity|].
  apply has_captures_false in Hhas. congruence.
Qed.

Lemma captured_transaction_keeps_status_witness :
  let self := Transaction.Build 7%N 100 AUTHORIZED "123456" [Capture.Build 0] [] in
  Transaction.status (invoke_all [DoCancel; DoRefund 0; DoCapture 100; DoCancel] self)
    = AUTHORIZED.
Proof.
  intros self.
  apply (captured_transaction_keeps_status [DoCancel; DoRefund 0; DoCapture 100; DoCancel] self).
  discriminate.
Defined.

(** X8.  A cancelled transaction takes no capture any more: under any
    sequence of calls it stays [CANCELLED] with the capture list it had,
    and every [capture] on it, whatever the amount, raises
    [CaptureNotAuthorized]. *)
Theorem cancelled_transaction_takes_no_capture :
  forall (calls : list TransactionMethod) (self : Transaction.t) (amount : Z),
    Transaction.status self = CANCELLED ->
    Transaction.status (invoke_all calls self) = CANCELLED /\
    Transaction._captures (invoke_all calls self) = Transaction._captures self /\
    Transaction.capture amount (invoke_all calls self)
      = (Raised CaptureNotAuthorized, invoke_all calls self).
Proof.
  intros calls self amount Hcancelled.
  assert (Hinv : Transaction.status (invoke_all calls self) = CANCELLED /\
                 Transaction._captures (invoke_all calls self) = Transaction._captures self).
  { apply (invoke_all_invariant
             (fun self' =>
                Transaction.status self' = CANCELLED /\
                Transaction._captures self' = Transaction._captures self));
      [|split; [exact Hcancelled | reflexivity]].
    intros c self' [Hstatus Hsame].
    destruct (invoke_cases c self')
      as [-> | [(a & Hauth & _) | [(Hauth & _) | (a & _ & ->)]]];
      simpl; try (split; assumption); congruence. }
  destruct Hinv as [Hstatus Hsame]. split; [exact Hstatus|]. split; [exact Hsame|].
  rewrite Transaction_capture_eq. unfold Transaction.is_authorized. rewrite Hstatus.
  reflexivity.
Qed.

Lemma cancelled_transaction_takes_no_capture_witness :
  let self := Transaction.Build 7%N 100 CANCELLED "123456" [] [] in
  Transaction._captures (invoke_all [DoCapture 10; DoRefund (-5); DoCancel; DoCapture 0] self)
    = [].
Proof.
  intros self.
  apply (cancelled_transaction_takes_no_capture
           [DoCapture 10; DoRefund (-5); DoCancel; DoCapture 0] self 0).
  reflexivity.
Defined.

(** X9.  The capture bound needs no condition on the amounts: if the
    recorded captures sum to at most the authorized amount, they still do
    after any sequence of calls, negative amounts included. *)
Theorem captures_never_exceed_amount :
  forall (calls : list TransactionMethod) (self : Transaction.t),
    Transaction.captured_amount self <= Transaction.amount self ->
    Transaction.captured_amount (invoke_all calls self)
      <= Transaction.amount (invoke_all calls self).
Proof.
  intros calls self Hbound.
  apply (invoke_all_invariant
           (fun self' => Transaction.captured_amount self' <= Transaction.amount self'));
    [|exact Hbound].
  intros c self' Hprev.
  destruct (invoke_cases c self')
    as [-> | [(amount & _ & Hfits & ->) | [(_ & _ & ->) | (amount & _ & ->)]]];
    try exact Hprev.
  rewrite captured_amount_app. exact Hfits.
Qed.

Lemma captures_never_exceed_amount_witness :
  let self := Transaction.__init__ 7%N 100 AUTHORIZED "123456" in
  Transaction.captured_amount
    (invoke_all [DoCapture 60; DoCapture (-20); DoCapture 70; DoRefund 5; DoCapture 60] self)
  <= Transaction.amount
       (invoke_all [DoCapture 60; DoCapture (-20); DoCapture 70; DoRefund 5; DoCapture 60] self).
Proof.
  intros self.
  apply (captures_never_exceed_amount
           [DoCapture 60; DoCapture (-20); DoCapture 70; DoRefund 5; DoCapture 60] self).
  vm_compute. discriminate.
Defined.

(** ** Account: invariants of the stored transactions *)

(** X10.  In every account reachable from [Account(balance)] by public
    calls, every stored transaction sits under its own id, which is the
    class default, is [AUTHORIZED] or [CANCELLED] (never [CREATED]), has an
    amount that is not negative, and has captures summing to at most that
    amount. *)
Theorem stored_transactions_are_well_formed :
  forall (id_default : UUID) (balance : Z) (calls : list Call)
         (k : UUID) (transaction : Transaction.t),
    Account.__transactions (run id_default calls (Account.__init__ balance)) !! k
      = Some transaction ->
    k = Transaction.id transaction /\ well_formed id_default transaction.
Proof.
  intros id_default balance calls.
  apply (run_invariant id_default
           (fun self =>
              forall k transaction,
                Account.__transactions self !! k = Some transaction ->
                k = Transaction.id transaction /\ well_formed id_default transaction)).
  - intros c self outcome self' Hall Hstep.
    destruct Hstep; try exact Hall; simpl; intros k' transaction';
      try match goal with
        | Hk : Account.__transactions _ !! _ = Some _ |- _ =>
            destruct (Hall _ _ Hk) as (Hkey & Hid & Hstatus & Hamount & Hbound)
        end;
      rewrite ?lookup_insert;
      try match goal with
        | |- context [decide (?a = k')] => destruct (decide (a = k')) as [<-|Hne]
        end;
      intros Hk'; try (apply Hall; exact Hk'); injection Hk' as <-;
      unfold well_formed; simpl; repeat split; auto; try lia; try discriminate.
    + unfold Transaction.captured_amount, sum. simpl. lia.
    + rewrite captured_amount_app. simpl. assumption.
    + rewrite captured_amount_app. simpl. assumption.
  - intros k transaction Hk. simpl in Hk. rewrite lookup_empty in Hk. discriminate.
Qed.

Lemma stored_transactions_are_well_formed_witness :
  well_formed 7%N (Transaction.Build 7%N 100 AUTHORIZED "123456" [Capture.Build 60] []).
Proof.
  apply (stored_transactions_are_well_formed 7%N 1000
           [CallAuthorize [1; 2; 3; 4; 5; 6]%N 100; CallCapture 7%N 60; CallCapture 7%N 50] 7%N).
  reflexivity.
Defined.

(** ** Account: where the funds go *)

(** X11.  Every call changes [balance + authorized_amount] by exactly the
    funds it moves: a deposit or refund that returns adds its amount, a
    withdrawal or capture that returns takes its amount away.  [authorize]
    and [cancel] never change the total, whether they return or raise and
    even when a cancel is repeated, and a call that raises never changes
    it. *)
Theorem calls_conserve_total_funds :
  forall (id_default : UUID) (c : Call) (self : Account.t),
    let outcome := fst (perform id_default c self) in
    let self' := snd (perform id_default c self) in
    Account.__balance self' + Account.__authorized_amount self'
    = Account.__balance self + Account.__authorized_amount self + funds_moved c outcome.
Proof.
  intros id_default c self outcome self'. subst outcome self'.
  destruct (perform_step id_default c self); simpl; lia.
Qed.

(** X12.  What a call cannot touch.  Every call leaves the transactions
    under all keys but the one it addresses as they are ([deposit] and
    [withdraw] address none, [authorize] the default id).  [deposit] and
    [withdraw] never change the authorized amount, [capture] never changes
    the balance, [refund] never changes the authorized amount; all this
    whether the call returns or raises. *)
Theorem calls_leave_the_rest_untouched :
  forall (id_default : UUID) (c : Call) (self : Account.t),
    let self' := snd (perform id_default c self) in
    (forall k : UUID,
       addressed id_default c <> Some k ->
       Account.__transactions self' !! k = Account.__transactions self !! k) /\
    match c with
    | CallDeposit _ | CallWithdraw _ | CallRefund _ _ =>
        Account.__authorized_amount self' = Account.__authorized_amount self
    | CallCapture _ _ => Account.__balance self' = Account.__balance self
    | CallAuthorize _ _ | CallCancel _ => True
    end.
Proof.
  intros id_default c self self'. subst self'.
  destruct (perform_step id_default c self); simpl; split; try reflexivity; try exact I;
    intros k' Hother; try reflexivity;
    rewrite lookup_insert_ne; try reflexivity; congruence.
Qed.

(** ** Account: round trips and composition *)

(** X13.  Deposit and withdrawal undo each other.  On an account whose
    balance is not negative, [deposit(a)] followed by [withdraw(a)] returns
    twice and leaves the account exactly as it was; with [a <= balance],
    so does [withdraw(a)] followed by [deposit(a)]. *)
Theorem deposit_withdraw_round_trip :
  forall (a : Z) (self : Account.t),
    0 <= a -> 0 <= Account.__balance self ->
    (exists self1,
       Account.deposit a self = (Returned tt, self1) /\
       Account.withdraw a self1 = (Returned tt, self)) /\
    (a <= Account.__balance self ->
     exists self1,
       Account.withdraw a self = (Returned tt, self1) /\
       Account.deposit a self1 = (Returned tt, self)).
Proof.
  intros a self Ha Hbalance. split.
  - eexists. split.
    + rewrite Account_deposit_eq. destruct (Z.ltb_spec a 0); [lia | reflexivity].
    + rewrite Account_withdraw_eq. simpl.
      destruct (Z.ltb_spec a 0); [lia|].
      destruct (Z.ltb_spec (Account.__balance self + a) a); [lia|].
      unfold Account.set_balance. simpl.
      replace (Account.__balance self + a - a) with (Account.__balance self) by lia.
      rewrite Account_eta. reflexivity.
  - intros Hfunds. eexists. split.
    + rewrite Account_withdraw_eq. destruct (Z.ltb_spec a 0); [lia|].
      destruct (Z.ltb_spec (Account.__balance self) a); [lia | reflexivity].
    + rewrite Account_deposit_eq. destruct (Z.ltb_spec a 0); [lia|].
      unfold Account.set_balance. simpl.
      replace (Account.__balance self - a + a) with (Account.__balance self) by lia.
      rewrite Account_eta. reflexivity.
Qed.

Lemma deposit_withdraw_round_trip_witness :
  exists self1,
    Account.deposit 100 (Account.__init__ 1000) = (Returned tt, self1) /\
    Account.withdraw 100 self1 = (Returned tt, Account.__init__ 1000).
Proof.
  apply (deposit_withdraw_round_trip 100 (Account.__init__ 1000)); simpl; lia.
Defined.

(** X14.  Authorize, capture in full, refund in full.  On an account with
    [0 <= a <= balance] and an authorized amount that is not negative,
    [authorize(a)] and [capture(id, a)] return and leave the balance lowered
    by [a] and the authorized amount as before the authorize; [refund(id, a)]
    then returns and restores the balance; after that every refund of a
    positive amount raises [CannotRefundMoreThanCaptured] and changes
    nothing. *)
Theorem authorize_capture_refund_round_trip :
  forall (id_default : UUID) (choices : list N) (a : Z) (self : Account.t),
    0 <= a <= Account.__balance self ->
    0 <= Account.__authorized_amount self ->
    exists (transaction_id : UUID) (self1 self2 self3 : Account.t),
      Account.authorize id_default choices a self = (Returned transaction_id, self1) /\
      Account.capture transaction_id a self1 = (Returned tt, self2) /\
      Account.__balance self2 = Account.__balance self - a /\
      Account.__authorized_amount self2 = Account.__authorized_amount self /\
      Account.refund transaction_id a self2 = (Returned tt, self3) /\
      Account.__balance self3 = Account.__balance self /\
      Account.__authorized_amount self3 = Account.__authorized_amount self /\
      (forall more : Z,
         0 < more ->
         Account.refund transaction_id more self3 = (Raised CannotRefundMoreThanCaptured, self3)).
Proof.
  intros id_default choices a self [Hpos Hfunds] Hhold.
  eexists id_default, _, _, _.
  split.
  { rewrite Account_authorize_eq. destruct (Z.ltb_spec a 0); [lia|].
    destruct (Z.geb_spec (Account.__balance self) a); [reflexivity | lia]. }
  split.
  { erewrite Account_capture_eq by (simpl; apply lookup_insert_eq).
    rewrite Transaction_capture_eq. simpl.
    unfold Transaction.captured_amount, sum. simpl.
    destruct (Z.gtb_spec (0 + a) a); [lia|]. simpl.
    destruct (Z.ltb_spec (Account.__authorized_amount self + a) a); [lia|].
    rewrite insert_insert_eq. reflexivity. }
  split; [reflexivity|]. split; [simpl; lia|].
  split.
  { erewrite Account_refund_eq by (simpl; apply lookup_insert_eq).
    rewrite Transaction_refund_eq. simpl.
    unfold Transaction.captured_amount, Transaction.refunded_amount, sum. simpl.
    destruct (Z.gtb_spec (0 + a) (a + 0)); [lia|]. simpl.
    rewrite insert_insert_eq. reflexivity. }
  split; [simpl; lia|]. split; [simpl; lia|].
  intros more Hmore.
  erewrite Account_refund_eq by (simpl; apply lookup_insert_eq).
  rewrite Transaction_refund_eq. simpl.
  unfold Transaction.captured_amount, Transaction.refunded_amount, sum. simpl.
  destruct (Z.gtb_spec (a + 0 + more) (a + 0)); [reflexivity | lia].
Qed.

Lemma authorize_capture_refund_round_trip_witness :
  exists (transaction_id : UUID) (self1 self2 self3 : Account.t),
    Account.authorize 7%N [1; 2; 3; 4; 5; 6]%N 100 (Account.__init__ 1000)
      = (Returned transaction_id, self1) /\
    Account.capture transaction_id 100 self1 = (Returned tt, self2) /\
    Account.__balance self2 = 900 /\
    Account.__authorized_amount self2 = 0 /\
    Account.refund transaction_id 100 self2 = (Returned tt, self3) /\
    Account.__balance self3 = 1000 /\
    Account.__authorized_amount self3 = 0.
Proof.
  destruct (authorize_capture_refund_round_trip 7%N [1; 2; 3; 4; 5; 6]%N 100
              (Account.__init__ 1000))
    as (transaction_id & self1 & self2 & self3 & H1 & H2 & H3 & H4 & H5 & H6 & H7 & _);
    [simpl; lia | simpl; lia |].
  exists transaction_id, self1, self2, self3. repeat split; assumption.
Defined.

Lemma calls_leave_the_rest_untouched_witness :
  Account.__transactions
    (snd (perform 7%N (CallCancel 7%N)
            (Account.Build 900 100
               {[ 7%N := Transaction.Build 7%N 100 AUTHORIZED "123456" [] [];
                  8%N := Transaction.Build 8%N 5 AUTHORIZED "654321" [] [] ]}))) !! 8%N
  = Some (Transaction.Build 8%N 5 AUTHORIZED "654321" [] []).
Proof.
  rewrite (proj1 (calls_leave_the_rest_untouched 7%N (CallCancel 7%N)
                    (Account.Build 900 100
                       {[ 7%N := Transaction.Build 7%N 100 AUTHORIZED "123456" [] [];
                          8%N := Transaction.Build 8%N 5 AUTHORIZED "654321" [] [] ]})) 8%N).
  - reflexivity.
  - simpl. discriminate.
Defined.

(** X15.  Captures add up.  On an authorized transaction, two captures of
    amounts [x] and [y] that are not negative, fit together into what is
    left of the transaction's amount and into the authorized amount, both
    return; a single capture of [x + y] returns as well, and the two ways
    leave the same balance, the same authorized amount and the same
    captured total. *)
Theorem split_capture_equals_single_capture :
  forall (k : UUID) (x y : Z) (self : Account.t) (transaction : Transaction.t),
    Account.__transactions self !! k = Some transaction ->
    Transaction.status transaction = AUTHORIZED ->
    0 <= x -> 0 <= y ->
    Transaction.captured_amount transaction + x + y <= Transaction.amount transaction ->
    x + y <= Account.__authorized_amount self ->
    exists (self1 self2 single : Account.t) (split_tx single_tx : Transaction.t),
      Account.capture k x self = (Returned tt, self1) /\
      Account.capture k y self1 = (Returned tt, self2) /\
      Account.capture k (x + y) self = (Returned tt, single) /\
      Account.__balance self2 = Account.__balance single /\
      Account.__authorized_amount self2 = Account.__authorized_amount single /\
      Account.__transactions self2 !! k = Some split_tx /\
      Account.__transactions single !! k = Some single_tx /\
      Transaction.captured_amount split_tx = Transaction.captured_amount single_tx /\
      Transaction.captured_amount single_tx = Transaction.captured_amount transaction + x + y.
Proof.
  intros k x y self transaction Hk Hstatus Hx Hy Hfits Hhold.
  apply is_authorized_true in Hstatus.
  eexists _, _, _, _, _.
  split.
  { rewrite (Account_capture_eq _ _ _ _ Hk), Transaction_capture_eq, Hstatus. simpl.
    destruct (Z.gtb_spec (Transaction.captured_amount transaction + x)
                (Transaction.amount transaction)); [lia|]. simpl.
    destruct (Z.ltb_spec (Account.__authorized_amount self) x); [lia|]. reflexivity. }
  split.
  { erewrite Account_capture_eq by (simpl; apply lookup_insert_eq).
    rewrite Transaction_capture_eq.
    unfold Transaction.is_authorized in *. simpl. rewrite Hstatus. simpl.
    rewrite captured_amount_app. simpl.
    destruct (Z.gtb_spec (Transaction.captured_amount transaction + x + y)
                (Transaction.amount transaction)); [lia|]. simpl.
    destruct (Z.ltb_spec (Account.__authorized_amount self - x) y); [lia|].
    rewrite insert_insert_eq. reflexivity. }
  split.
  { rewrite (Account_capture_eq _ _ _ _ Hk), Transaction_capture_eq, Hstatus. simpl.
    destruct (Z.gtb_spec (Transaction.captured_amount transaction + (x + y))
                (Transaction.amount transaction)); [lia|]. simpl.
    destruct (Z.ltb_spec (Account.__authorized_amount self) (x + y)); [lia|]. reflexivity. }
  split; [reflexivity|]. split; [simpl; lia|].
  split; [simpl; apply lookup_insert_eq|]. split; [simpl; apply lookup_insert_eq|].
  split.
  - unfold Transaction.captured_amount. simpl. rewrite !map_app, !sum_app. simpl. lia.
  - rewrite captured_amount_app. lia.
Qed.

Lemma split_capture_equals_single_capture_witness :
  exists (self1 self2 single : Account.t) (split_tx single_tx : Transaction.t),
    let self :=
      Account.Build 900 100 {[ 7%N := Transaction.Build 7%N 100 AUTHORIZED "123456" [] [] ]} in
    Account.capture 7%N 60 self = (Returned tt, self1) /\
    Account.capture 7%N 40 self1 = (Returned tt, self2) /\
    Account.capture 7%N (60 + 40) self = (Returned tt, single) /\
    Account.__balance self2 = Account.__balance single /\
    Account.__authorized_amount self2 = Account.__authorized_amount single /\
    Account.__transactions self2 !! 7%N = Some split_tx /\
    Account.__transactions single !! 7%N = Some single_tx /\
    Transaction.captured_amount split_tx = Transaction.captured_amount single_tx /\
    Transaction.captured_amount single_tx = 0 + 60 + 40.
Proof.
  apply (split_capture_equals_single_capture 7%N 60 40
           (Account.Build 900 100
              {[ 7%N := Transaction.Build 7%N 100 AUTHORIZED "123456" [] [] ]})
           (Transaction.Build 7%N 100 AUTHORIZED "123456" [] []));
    try reflexivity; try lia; vm_compute; discriminate.
Defined.

(** ** Account: exceptions without a repeated cancel *)

Lemma cancels_once_cancel (self : Account.t) (k : UUID) (transaction : Transaction.t) :
  cancels_once self (CallCancel k) = true ->
  Account.__transactions self !! k = Some transaction ->
  Transaction.status transaction <> CANCELLED.
Proof.
  simpl. intros Honce Hk Hstatus. rewrite Hk in Honce.
  apply is_cancelled_true in Hstatus. rewrite Hstatus in Honce. discriminate.
Qed.

Lemma step_remainders_covered (id_default : UUID) (c : Call) (self self' : Account.t)
    (outcome : Outcome (option UUID)) :
  remainders_covered id_default self -> cancels_once self c = true ->
  step id_default c self outcome self' ->
  remainders_covered id_default self'.
Proof.
  intros (Hauth & Hall) Honce Hstep.
  destruct Hstep;
    try (split; [exact Hauth | exact Hall]);
    try (exfalso; eapply cancels_once_cancel; eauto; fail);
    try match goal with
      | Hk : Account.__transactions _ !! _ = Some _ |- _ =>
          destruct (Hall _ _ Hk) as (Hkey & Hcover)
      end;
    try (specialize (Hcover ltac:(assumption)));
    try match goal with
      | Hnone : Transaction._captures ?tx = [] |- _ =>
          assert (Transaction.captured_amount tx = 0)
            by (unfold Transaction.captured_amount; rewrite Hnone; reflexivity)
      end;
    (split; [simpl; lia|]);
    intros k' transaction'; simpl; rewrite ?lookup_insert;
    try match goal with
      | |- context [decide (?a = k')] => destruct (decide (a = k')) as [<-|Hne]
      end;
    intros Hk';
    try (apply Hall in Hk'; destruct Hk' as (Hkey' & Hcover');
         split; [assumption|]; try congruence; intros; lia);
    injection Hk' as <-; split; auto; simpl; try discriminate;
    intros _; rewrite ?captured_amount_app;
    unfold Transaction.captured_amount in *; simpl in *; unfold sum in *; simpl in *; lia.
Qed.

Lemma run_remainders_covered (id_default : UUID) (calls : list Call) (self : Account.t) :
  remainders_covered id_default self -> cancels_once_run id_default calls self = true ->
  remainders_covered id_default (run id_default calls self).
Proof.
  revert self. induction calls as [|c calls IH]; intros self Hinv Hrun; [exact Hinv|].
  simpl in Hrun. apply andb_prop in Hrun as [Hc Hrest].
  rewrite run_cons. apply IH; [|exact Hrest].
  eapply step_remainders_covered; [exact Hinv | exact Hc | apply perform_step].
Qed.

(** X16.  As long as no cancel has been made on a transaction that was
    already cancelled, exceptions are atomic: in every account reached from
    [Account(balance)] by such calls (any amounts, returning or raising),
    every next call that raises leaves the account exactly as it found it,
    and the hold check of [capture] never fires: no [capture] that
    [Transaction.capture] has accepted raises [InsufficientFundsError]. *)
Theorem exceptions_are_atomic_without_repeated_cancel :
  forall (id_default : UUID) (balance : Z) (calls : list Call) (c : Call)
         (e : Exception) (self' : Account.t),
    cancels_once_run id_default calls (Account.__init__ balance) = true ->
    perform id_default c (run id_default calls (Account.__init__ balance)) = (Raised e, self') ->
    self' = run id_default calls (Account.__init__ balance) /\
    (forall k amount, c = CallCapture k amount -> e <> InsufficientFundsError).
Proof.
  intros id_default balance calls c e self' Honce Hraise.
  assert (Hinv : remainders_covered id_default (run id_default calls (Account.__init__ balance))).
  { apply run_remainders_covered; [|exact Honce].
    split; [simpl; lia|]. intros k tx Hk. simpl in Hk. rewrite lookup_empty in Hk.
    discriminate. }
  set (self := run id_default calls (Account.__init__ balance)) in *.
  pose proof (perform_step id_default c self) as Hstep.
  rewrite Hraise in Hstep. simpl in Hstep.
  destruct Hinv as (Hauth & Hall).
  inversion Hstep; subst; try (split; [reflexivity | intros; congruence]).
  exfalso.
  match goal with
  | Hk : Account.__transactions _ !! _ = Some _ |- _ =>
      destruct (Hall _ _ Hk) as (_ & Hcover)
  end.
  specialize (Hcover ltac:(assumption)). lia.
Qed.

Lemma exceptions_are_atomic_without_repeated_cancel_witness :
  let self :=
    run 7%N [CallAuthorize [1; 2; 3; 4; 5; 6]%N 100; CallCapture 7%N (-20); CallRefund 7%N (-5)]
      (Account.__init__ 1000) in
  snd (perform 7%N (CallCapture 7%N 130) self) = self.
Proof.
  intros self.
  apply (exceptions_are_atomic_without_repeated_cancel 7%N 1000
           [CallAuthorize [1; 2; 3; 4; 5; 6]%N 100; CallCapture 7%N (-20); CallRefund 7%N (-5)]
           (CallCapture 7%N 130) CannotCaptureMoreThanAuthorized).
  - vm_compute. reflexivity.
  - reflexivity.
Defined.

(** ** Bank: the directory of accounts *)

Lemma Bank_eta (self : Bank.t) : Bank.Build (Bank.__accounts self) = self.
Proof. destruct self; reflexivity. Qed.

Lemma Bank_unknown (name : string) (self : Bank.t) {A} (rest : string -> Method Bank.t A) :
  Bank.__accounts self !! name = None ->
  bind (Bank.__get_account name) rest self = (Raised (AccountNotFoundError name), self).
Proof. intros H. unfold bind, Bank.__get_account. rewrite H. reflexivity. Qed.

Lemma Bank_known (name : string) (self : Bank.t) (account : Account.t) {A}
    (m : Method Account.t A) :
  Bank.__accounts self !! name = Some account ->
  bind (Bank.__get_account name) (fun a => Bank.call a m) self
  = (fst (m account), Bank.Build (<[name := snd (m account)]> (Bank.__accounts self))).
Proof.
  intros H. unfold bind, Bank.__get_account, Bank.call. rewrite H. simpl. rewrite H.
  destruct (m account); reflexivity.
Qed.

Lemma perform_bank_known (id_default : UUID) (self : Bank.t) (name : string)
    (account : Account.t) (c : Call) :
  Bank.__accounts self !! name = Some account ->
  perform_bank id_default (BankOn name c) self
  = (match fst (perform id_default c account) with
     | Returned v => Returned (value_of v)
     | Raised e => Raised e
     end,
     Bank.Build (<[name := snd (perform id_default c account)]> (Bank.__accounts self))).
Proof.
  intros Hknown.
  destruct c; unfold perform_bank, perform;
    rewrite !bind_ret_eq;
    unfold Bank.deposit, Bank.withdraw, Bank.authorize, Bank.capture, Bank.cancel, Bank.refund;
    rewrite (Bank_known _ _ _ _ Hknown); simpl;
    match goal with
    | |- context [fst ?r] => destruct r as [[v|e] account']
    end; reflexivity.
Qed.

Lemma perform_bank_unknown (id_default : UUID) (self : Bank.t) (name : string) (c : Call) :
  Bank.__accounts self !! name = None ->
  perform_bank id_default (BankOn name c) self = (Raised (AccountNotFoundError name), self).
Proof.
  intros Hnone.
  destruct c; unfold perform_bank; rewrite bind_ret_eq;
    unfold Bank.deposit, Bank.withdraw, Bank.authorize, Bank.capture, Bank.cancel, Bank.refund;
    rewrite (Bank_unknown _ _ _ Hnone); reflexivity.
Qed.

(** X17.  Every method of the bank that takes an account name raises
    [AccountNotFoundError] carrying that name when no account is registered
    under it, and leaves the bank as it was; nothing of the account layer
    runs. *)
Theorem unknown_account_is_not_found :
  forall (id_default : UUID) (choices : list N) (self : Bank.t) (name : string)
         (transaction_id : UUID) (amount : Z),
    Bank.__accounts self !! name = None ->
    Bank.deposit name amount self = (Raised (AccountNotFoundError name), self) /\
    Bank.withdraw name amount self = (Raised (AccountNotFoundError name), self) /\
    Bank.balance name self = (Raised (AccountNotFoundError name), self) /\
    Bank.authorized_amount name self = (Raised (AccountNotFoundError name), self) /\
    Bank.authorize id_default choices name amount self
      = (Raised (AccountNotFoundError name), self) /\
    Bank.cancel name transaction_id self = (Raised (AccountNotFoundError name), self) /\
    Bank.capture name transaction_id amount self
      = (Raised (AccountNotFoundError name), self) /\
    Bank.refund name transaction_id amount self = (Raised (AccountNotFoundError name), self).
Proof.
  intros id_default choices self name transaction_id amount Hnone.
  unfold Bank.deposit, Bank.withdraw, Bank.balance, Bank.authorized_amount,
    Bank.authorize, Bank.cancel, Bank.capture, Bank.refund.
  repeat split; apply Bank_unknown; exact Hnone.
Qed.

Lemma unknown_account_is_not_found_witness :
  Bank.deposit "4539148803436467" 10 Bank.__init__
  = (Raised (AccountNotFoundError "4539148803436467"), Bank.__init__).
Proof.
  apply (unknown_account_is_not_found 7%N [] Bank.__init__ "4539148803436467" 7%N 10).
  reflexivity.
Defined.

(** X18.  The bank passes calls through.  A call addressed to a registered
    account does to that account exactly what the account's own method
    does, hands back the same value or the same exception, and touches no
    other account; the two reads return the account's balance and
    authorized amount and leave the bank as it was. *)
Theorem bank_delegates_to_the_account :
  forall (id_default : UUID) (self : Bank.t) (name : string) (account : Account.t) (c : Call),
    Bank.__accounts self !! name = Some account ->
    perform_bank id_default (BankOn name c) self
    = (match fst (perform id_default c account) with
       | Returned v => Returned (value_of v)
       | Raised e => Raised e
       end,
       Bank.Build (<[name := snd (perform id_default c account)]> (Bank.__accounts self))) /\
    Bank.balance name self = (Returned (Account.__balance account), self) /\
    Bank.authorized_amount name self = (Returned (Account.__authorized_amount account), self).
Proof.
  intros id_default self name account c Hknown. split; [|split].
  - apply perform_bank_known. exact Hknown.
  - unfold Bank.balance. rewrite (Bank_known _ _ _ _ Hknown). simpl.
    rewrite (insert_id _ _ _ Hknown), Bank_eta. reflexivity.
  - unfold Bank.authorized_amount. rewrite (Bank_known _ _ _ _ Hknown). simpl.
    rewrite (insert_id _ _ _ Hknown), Bank_eta. reflexivity.
Qed.

Lemma bank_delegates_to_the_account_witness :
  Bank.balance "4539148803436467"
    (Bank.Build {[ "4539148803436467" := Account.__init__ 1000 ]})
  = (Returned 1000, Bank.Build {[ "4539148803436467" := Account.__init__ 1000 ]}).
Proof.
  apply (bank_delegates_to_the_account 7%N
           (Bank.Build {[ "4539148803436467" := Account.__init__ 1000 ]})
           "4539148803436467" (Account.__init__ 1000) (CallDeposit 0)).
  reflexivity.
Defined.

(** X19.  [open_account] never raises and checks nothing: for every draw
    and every initial balance, negative ones included, it returns the card
    number made from the draw and registers a new account under it, whose
    balance reads back as the initial balance and whose authorized amount
    reads back as 0.  An account already registered under that card number
    is replaced; accounts under other names are untouched. *)
Theorem open_account_registers_a_new_account :
  forall (choices : list N) (initial_balance : Z) (self : Bank.t),
    let name := random_card_number 15 None choices in
    exists self' : Bank.t,
      Bank.open_account choices initial_balance self = (Returned name, self') /\
      Bank.__accounts self' !! name = Some (Account.__init__ initial_balance) /\
      Bank.balance name self' = (Returned initial_balance, self') /\
      Bank.authorized_amount name self' = (Returned 0, self') /\
      (forall other : string,
         other <> name -> Bank.__accounts self' !! other = Bank.__accounts self !! other).
Proof.
  intros choices initial_balance self name.
  exists (Bank.Build (<[name := Account.__init__ initial_balance]> (Bank.__accounts self))).
  assert (Hknown : <[name := Account.__init__ initial_balance]> (Bank.__accounts self) !! name
                   = Some (Account.__init__ initial_balance)) by apply lookup_insert_eq.
  split; [reflexivity|]. split; [exact Hknown|]. split; [|split].
  - unfold Bank.balance. erewrite Bank_known by exact Hknown. simpl.
    rewrite insert_insert_eq. reflexivity.
  - unfold Bank.authorized_amount. erewrite Bank_known by exact Hknown. simpl.
    rewrite insert_insert_eq. reflexivity.
  - intros other Hother. simpl. apply lookup_insert_ne. congruence.
Qed.

Lemma open_account_registers_a_new_account_witness :
  exists self' : Bank.t,
    Bank.open_account [4; 5; 3; 9; 1; 4; 8; 8; 0; 3; 4; 3; 6; 4; 6]%N (-5)
      (Bank.Build {[ "4539148803436467" := Account.__init__ 1000 ]})
    = (Returned "4539148803436467", self') /\
    Bank.balance "4539148803436467" self' = (Returned (-5), self').
Proof.
  destruct (open_account_registers_a_new_account
              [4; 5; 3; 9; 1; 4; 8; 8; 0; 3; 4; 3; 6; 4; 6]%N (-5)
              (Bank.Build {[ "4539148803436467" := Account.__init__ 1000 ]}))
    as (self' & Hopen & _ & Hbalance & _).
  exists self'. split; [exact Hopen | exact Hbalance].
Defined.

Lemma run_bank_invariant (id_default : UUID) (P : Bank.t -> Prop) :
  (forall c self, P self -> P (snd (perform_bank id_default c self))) ->
  forall calls self, P self -> P (run_bank id_default calls self).
Proof.
  intros Hstep calls. unfold run_bank.
  induction calls as [|c calls IH]; intros self HP; simpl; [exact HP|].
  apply IH, Hstep, HP.
Qed.

(** X20.  No method of the bank removes an account: a name registered
    before a sequence of bank calls (openings and account calls, returning
    or raising) is still registered after it. *)
Theorem accounts_are_never_removed :
  forall (id_default : UUID) (calls : list BankCall) (self : Bank.t) (name : string),
    is_Some (Bank.__accounts self !! name) ->
    is_Some (Bank.__accounts (run_bank id_default calls self) !! name).
Proof.
  intros id_default calls self name Hsome.
  apply (run_bank_invariant id_default
           (fun self' => is_Some (Bank.__accounts self' !! name))); [|exact Hsome].
  intros c self' Hprev. destruct c as [choices initial_balance | account_name c].
  - simpl. rewrite lookup_insert. destruct (decide _); [eexists; reflexivity | exact Hprev].
  - destruct (Bank.__accounts self' !! account_name) as [account|] eqn:Hknown.
    + rewrite (perform_bank_known id_default self' account_name account c Hknown).
      simpl. rewrite lookup_insert. destruct (decide _); [eexists; reflexivity | exact Hprev].
    + rewrite (perform_bank_unknown id_default self' account_name c Hknown). exact Hprev.
Qed.

Lemma accounts_are_never_removed_witness :
  is_Some
    (Bank.__accounts
       (run_bank 7%N
          [BankOn "4539148803436467" (CallWithdraw 5000);
           BankOpen [0; 1; 0; 9; 0; 0; 0; 0; 0; 0; 0; 0; 0; 0; 0]%N 0;
           BankOn "4539148803436467" (CallAuthorize [1; 2; 3; 4; 5; 6]%N 100)]
          (Bank.Build {[ "4539148803436467" := Account.__init__ 1000 ]}))
     !! "4539148803436467").
Proof.
  apply (accounts_are_never_removed 7%N
           [BankOn "4539148803436467" (CallWithdraw 5000);
            BankOpen [0; 1; 0; 9; 0; 0; 0; 0; 0; 0; 0; 0; 0; 0; 0]%N 0;
            BankOn "4539148803436467" (CallAuthorize [1; 2; 3; 4; 5; 6]%N 100)]
           (Bank.Build {[ "4539148803436467" := Account.__init__ 1000 ]})
           "4539148803436467").
  eexists. reflexivity.
Defined.

(** ** Card numbers as account names *)

Lemma str_digits_card_number (length : N) (card_bin : option N) (choices : list N) :
  Forall (fun n => (n < 10)%N) choices ->
  str_digits (random_card_number length card_bin choices)
  = card_digits card_bin choices
    ++ str_digits (pretty (luhn_check (luhn_sum length (card_digits card_bin choices)))).
Proof.
  intros Hchoices. rewrite random_card_number_eq, str_digits_append.
  rewrite str_digits_concat by (apply card_digits_are_digits; exact Hchoices).
  reflexivity.
Qed.

Lemma card_number_inj (length : N) (card_bin : option N) (choices choices' : list N) :
  Forall (fun n => (n < 10)%N) choices ->
  Forall (fun n => (n < 10)%N) choices' ->
  List.length choices = List.length choices' ->
  random_card_number length card_bin choices = random_card_number length card_bin choices' ->
  choices = choices'.
Proof.
  intros Hdigits Hdigits' Hlength Hsame.
  apply (f_equal str_digits) in Hsame.
  rewrite !str_digits_card_number in Hsame by assumption.
  apply app_inj_1 in Hsame as [Hcard _].
  - destruct card_bin as [card_bin|]; simpl in Hcard; [|exact Hcard].
    apply app_inv_head in Hcard. exact Hcard.
  - destruct card_bin as [card_bin|]; simpl; [|exact Hlength].
    rewrite !length_app. lia.
Qed.

(** X21.  Two draws of the same number of digits from [range(10)] that
    differ give different card numbers (for the same [length] and the same
    [card_bin], if any): a card number is made twice only by repeating the
    draw. *)
Theorem distinct_draws_give_distinct_card_numbers :
  forall (length : N) (card_bin : option N) (choices choices' : list N),
    Forall (fun n => (n < 10)%N) choices ->
    Forall (fun n => (n < 10)%N) choices' ->
    List.length choices = List.length choices' ->
    random_card_number length card_bin choices = random_card_number length card_bin choices' ->
    choices = choices'.
Proof.
  intros length card_bin choices choices'. apply card_number_inj.
Qed.

Lemma distinct_draws_give_distinct_card_numbers_witness :
  random_card_number 15 None [4; 5; 3; 9; 1; 4; 8; 8; 0; 3; 4; 3; 6; 4; 6]%N
  <> random_card_number 15 None [0; 1; 0; 9; 0; 0; 0; 0; 0; 0; 0; 0; 0; 0; 0]%N.
Proof.
  intros Hsame.
  apply (distinct_draws_give_distinct_card_numbers 15 None) in Hsame.
  - discriminate Hsame.
  - repeat constructor.
  - repeat constructor.
  - reflexivity.
Defined.

(** X22.  Two accounts opened from different draws of fifteen digits live
    side by side: after both openings each name reads back its own initial
    balance.  Opened from the same draw, the second account takes the place
    of the first, whose balance is gone. *)
Theorem accounts_from_distinct_draws_coexist :
  forall (choices1 choices2 : list N) (balance1 balance2 : Z) (self : Bank.t),
    Forall (fun n => (n < 10)%N) choices1 ->
    Forall (fun n => (n < 10)%N) choices2 ->
    List.length choices1 = 15%nat -> List.length choices2 = 15%nat ->
    exists (name1 name2 : string) (self1 self2 : Bank.t),
      Bank.open_account choices1 balance1 self = (Returned name1, self1) /\
      Bank.open_account choices2 balance2 self1 = (Returned name2, self2) /\
      Bank.balance name2 self2 = (Returned balance2, self2) /\
      (choices1 <> choices2 ->
       name1 <> name2 /\ Bank.balance name1 self2 = (Returned balance1, self2)) /\
      (choices1 = choices2 ->
       name1 = name2 /\ Bank.balance name1 self2 = (Returned balance2, self2)).
Proof.
  intros choices1 choices2 balance1 balance2 self Hdigits1 Hdigits2 Hlength1 Hlength2.
  set (name1 := random_card_number 15 None choices1).
  set (name2 := random_card_number 15 None choices2).
  set (self1 := Bank.Build (<[name1 := Account.__init__ balance1]> (Bank.__accounts self))).
  set (self2 := Bank.Build (<[name2 := Account.__init__ balance2]> (Bank.__accounts self1))).
  assert (Hstored2 : Bank.__accounts self2 !! name2 = Some (Account.__init__ balance2))
    by apply lookup_insert_eq.
  assert (Hbalance2 : Bank.balance name2 self2 = (Returned balance2, self2)).
  { unfold Bank.balance. rewrite (Bank_known _ _ _ _ Hstored2). simpl.
    rewrite (insert_id _ _ _ Hstored2), Bank_eta. reflexivity. }
  exists name1, name2, self1, self2.
  split; [reflexivity|]. split; [reflexivity|]. split; [exact Hbalance2|]. split.
  - intros Hdiffer.
    assert (Hnames : name1 <> name2).
    { intros Hsame. apply Hdiffer.
      apply (card_number_inj 15 None); try assumption. congruence. }
    split; [exact Hnames|].
    assert (Hstored1 : Bank.__accounts self2 !! name1 = Some (Account.__init__ balance1)).
    { simpl. rewrite lookup_insert_ne by congruence. apply lookup_insert_eq. }
    unfold Bank.balance. rewrite (Bank_known _ _ _ _ Hstored1). simpl.
    rewrite (insert_id _ _ _ Hstored1), Bank_eta. reflexivity.
  - intros Hsame. assert (Hnames : name1 = name2) by (subst name1 name2; congruence).
    split; [exact Hnames|]. rewrite Hnames. exact Hbalance2.
Qed.

Lemma accounts_from_distinct_draws_coexist_witness :
  exists (name1 name2 : string) (self1 self2 : Bank.t),
    Bank.open_account [4; 5; 3; 9; 1; 4; 8; 8; 0; 3; 4; 3; 6; 4; 6]%N 1000 Bank.__init__
      = (Returned name1, self1) /\
    Bank.open_account [0; 1; 0; 9; 0; 0; 0; 0; 0; 0; 0; 0; 0; 0; 0]%N 0 self1
      = (Returned name2, self2) /\
    Bank.balance name2 self2 = (Returned 0, self2) /\
    Bank.balance name1 self2 = (Returned 1000, self2).
Proof.
  destruct (accounts_from_distinct_draws_coexist
              [4; 5; 3; 9; 1; 4; 8; 8; 0; 3; 4; 3; 6; 4; 6]%N
              [0; 1; 0; 9; 0; 0; 0; 0; 0; 0; 0; 0; 0; 0; 0]%N 1000 0 Bank.__init__)
    as (name1 & name2 & self1 & self2 & Hopen1 & Hopen2 & Hbalance2 & Hdiffer & _);
    try (repeat constructor); try reflexivity.
  exists name1, name2, self1, self2.
  split; [exact Hopen1|]. split; [exact Hopen2|]. split; [exact Hbalance2|].
  apply Hdiffer. discriminate.
Defined.

(** ** Account: refunds when amounts are not negative *)

Lemma run_invariant_when (id_default : UUID) (Q : Call -> bool) (P : Account.t -> Prop) :
  (forall c self outcome self',
     Q c = true -> P self -> step id_default c self outcome self' -> P self') ->
  forall (calls : list Call) (self : Account.t),
    forallb Q calls = true -> P self -> P (run id_default calls self).
Proof.
  intros Hstep calls.
  induction calls as [|c calls IH]; intros self HQ HP; [exact HP|].
  simpl in HQ. apply andb_prop in HQ as [Hc Hrest]. rewrite run_cons.
  apply IH; [exact Hrest|]. eapply Hstep; [exact Hc | exact HP | apply perform_step].
Qed.

Lemma step_refunds_within_captures (id_default : UUID) (c : Call) (self self' : Account.t)
    (outcome : Outcome (option UUID)) :
  settles_nonnegative c = true ->
  stored refunds_within_captures self ->
  step id_default c self outcome self' ->
  stored refunds_within_captures self'.
Proof.
  intros Hsign Hall Hstep.
  destruct Hstep; try exact Hall;
    try (apply stored_insert; [exact Hall|]);
    try match goal with
      | Hk : Account.__transactions _ !! _ = Some ?tx |- _ =>
          destruct (Hall _ _ Hk) as [Hlow Hhigh]
      end;
    simpl in Hsign; try apply Z.leb_le in Hsign;
    unfold refunds_within_captures;
    rewrite ?captured_amount_app, ?refunded_amount_app;
    unfold Transaction.captured_amount, Transaction.refunded_amount in *; simpl;
    unfold sum in *; simpl in *; lia.
Qed.

(** X23.  When no capture and no refund is called with a negative amount,
    refunds never exceed captures: in every account reached from
    [Account(balance)] by such calls (otherwise arbitrary, returning or
    raising, repeated cancels included) the refunds of every stored
    transaction sum to something between 0 and the sum of its captures, and
    a refund of a positive amount on a stored transaction without captures
    (never captured, or cancelled) raises [CannotRefundMoreThanCaptured]
    and changes nothing. *)
Theorem refunds_stay_within_captures :
  forall (id_default : UUID) (balance : Z) (calls : list Call)
         (k : UUID) (transaction : Transaction.t),
    forallb settles_nonnegative calls = true ->
    Account.__transactions (run id_default calls (Account.__init__ balance)) !! k
      = Some transaction ->
    refunds_within_captures transaction /\
    (forall amount : Z,
       Transaction._captures transaction = [] -> 0 < amount ->
       Account.refund k amount (run id_default calls (Account.__init__ balance))
       = (Raised CannotRefundMoreThanCaptured, run id_default calls (Account.__init__ balance))).
Proof.
  intros id_default balance calls k transaction Hsigns Hk.
  assert (Hall : stored refunds_within_captures
                   (run id_default calls (Account.__init__ balance))).
  { apply (run_invariant_when id_default settles_nonnegative); [|exact Hsigns|apply stored_init].
    intros c self outcome self' Hc HP Hstep.
    eapply step_refunds_within_captures; eassumption. }
  destruct (Hall _ _ Hk) as [Hlow Hhigh]. split; [split; assumption|].
  intros amount Hnone Hpositive.
  rewrite (Account_refund_eq _ _ _ _ Hk), Transaction_refund_eq.
  assert (Hzero : Transaction.captured_amount transaction = 0)
    by (unfold Transaction.captured_amount; rewrite Hnone; reflexivity).
  destruct (Z.gtb_spec (Transaction.refunded_amount transaction + amount)
              (Transaction.captured_amount transaction)); [reflexivity | lia].
Qed.

Lemma refunds_stay_within_captures_witness :
  Account.refund 7%N 100
    (run 7%N [CallAuthorize [1; 2; 3; 4; 5; 6]%N 100; CallCancel 7%N; CallCancel 7%N]
       (Account.__init__ 1000))
  = (Raised CannotRefundMoreThanCaptured,
     run 7%N [CallAuthorize [1; 2; 3; 4; 5; 6]%N 100; CallCancel 7%N; CallCancel 7%N]
       (Account.__init__ 1000)).
Proof.
  apply (refunds_stay_within_captures 7%N 1000
           [CallAuthorize [1; 2; 3; 4; 5; 6]%N 100; CallCancel 7%N; CallCancel 7%N] 7%N
           (Transaction.Build 7%N 100 CANCELLED "123456" [] [])).
  - reflexivity.
  - reflexivity.
  - reflexivity.
  - lia.
Defined.

(** ** Bank: accounts do not interfere *)

Lemma perform_bank_other (id_default : UUID) (c : BankCall) (self : Bank.t) (name : string) :
  bank_target c <> name ->
  Bank.__accounts (snd (perform_bank id_default c self)) !! name = Bank.__accounts self !! name.
Proof.
  intros Hother. destruct c as [choices initial_balance | account_name c]; simpl in Hother.
  - simpl. apply lookup_insert_ne. exact Hother.
  - destruct (Bank.__accounts self !! account_name) as [account|] eqn:Hknown.
    + rewrite (perform_bank_known id_default self account_name account c Hknown). simpl.
      apply lookup_insert_ne. exact Hother.
    + rewrite (perform_bank_unknown id_default self account_name c Hknown). reflexivity.
Qed.

(** X24.  Whatever is done to other accounts leaves an account alone: a
    sequence of bank calls none of which is addressed to [name], and none
    of which opens an account whose card number is [name], leaves what is
    registered under [name] (an account in some state, or nothing) exactly
    as it was. *)
Theorem other_accounts_do_not_interfere :
  forall (id_default : UUID) (calls : list BankCall) (self : Bank.t) (name : string),
    Forall (fun c => bank_target c <> name) calls ->
    Bank.__accounts (run_bank id_default calls self) !! name = Bank.__accounts self !! name.
Proof.
  intros id_default calls self name Hothers. revert self. unfold run_bank.
  induction Hothers as [|c calls Hc _ IH]; intros self; simpl; [reflexivity|].
  rewrite IH. apply perform_bank_other. exact Hc.
Qed.

Lemma other_accounts_do_not_interfere_witness :
  Bank.__accounts
    (run_bank 7%N
       [BankOn "0000000000000000" (CallDeposit 5);
        BankOpen [0; 1; 0; 9; 0; 0; 0; 0; 0; 0; 0; 0; 0; 0; 0]%N 0;
        BankOn "01090000000000010" (CallAuthorize [1; 2; 3; 4; 5; 6]%N 0)]
       (Bank.Build {[ "4539148803436467" := Account.__init__ 1000;
                      "0000000000000000" := Account.__init__ 0 ]}))
  !! "4539148803436467"
  = Some (Account.__init__ 1000).
Proof.
  rewrite (other_accounts_do_not_interfere 7%N
             [BankOn "0000000000000000" (CallDeposit 5);
              BankOpen [0; 1; 0; 9; 0; 0; 0; 0; 0; 0; 0; 0; 0; 0; 0]%N 0;
              BankOn "01090000000000010" (CallAuthorize [1; 2; 3; 4; 5; 6]%N 0)]
             (Bank.Build {[ "4539148803436467" := Account.__init__ 1000;
                            "0000000000000000" := Account.__init__ 0 ]})
             "4539148803436467").
  - reflexivity.
  - repeat constructor; simpl; discriminate.
Defined.

(** X25.  The bank is transparent for one account: a sequence of account
    calls made through the bank on a registered name leaves under that name
    the account that the same calls, made on the account itself, produce. *)
Theorem bank_runs_are_account_runs :
  forall (id_default : UUID) (calls : list Call) (self : Bank.t) (name : string)
         (account : Account.t),
    Bank.__accounts self !! name = Some account ->
    Bank.__accounts (run_bank id_default (map (BankOn name) calls) self) !! name
    = Some (run id_default calls account).
Proof.
  intros id_default calls.
  induction calls as [|c calls IH]; intros self name account Hknown; [exact Hknown|].
  change (Bank.__accounts
            (run_bank id_default (map (BankOn name) calls)
               (snd (perform_bank id_default (BankOn name c) self))) !! name
          = Some (run id_default calls (snd (perform id_default c account)))).
  apply IH.
  rewrite (perform_bank_known id_default self name account c Hknown). simpl.
  apply lookup_insert_eq.
Qed.

Lemma bank_runs_are_account_runs_witness :
  Bank.__accounts
    (run_bank 7%N
       (map (BankOn "4539148803436467")
          [CallAuthorize [1; 2; 3; 4; 5; 6]%N 100; CallCapture 7%N 100; CallRefund 7%N 50])
       (Bank.Build {[ "4539148803436467" := Account.__init__ 1000 ]}))
  !! "4539148803436467"
  = Some (run 7%N
            [CallAuthorize [1; 2; 3; 4; 5; 6]%N 100; CallCapture 7%N 100; CallRefund 7%N 50]
            (Account.__init__ 1000)).
Proof.
  apply (bank_runs_are_account_runs 7%N
           [CallAuthorize [1; 2; 3; 4; 5; 6]%N 100; CallCapture 7%N 100; CallRefund 7%N 50]
           (Bank.Build {[ "4539148803436467" := Account.__init__ 1000 ]})
           "4539148803436467" (Account.__init__ 1000)).
  reflexivity.
Defined.
